(** * Monkee front end ([static/app.js]): upload, preview and generation workflow

    A shallow embedding of the page controller.  The module-level variables
    and the DOM nodes the handlers read and write become the fields of one
    [State] record; every handler is a computation in a small state and
    exception monad [JS]; the browser's event loop is a step function over
    [Event]s.  Asynchronous work (the pending [FileReader]s and the pending
    [fetch] calls) is kept in the state and completed by events of its own,
    in any order.

    The model follows the current revision of the controller, the one with
    the flag [isGenerating].  The fullscreen viewer, the list of suggested
    prompts and the share button act on nodes of their own and on the error
    surface; they are modelled apart, beside [State].  The download, which
    only clicks a temporary link, and the year in the footer are left
    out. *)

From Stdlib Require Import Ascii String ZArith Lia.
From stdpp Require Import base strings pretty list.

Set Warnings "-register-all".

Local Open Scope string_scope.
Local Open Scope Z_scope.
Local Open Scope nat_scope.
Local Open Scope list_scope.

(** ** Strings

    A string is a sequence of code units; the model keeps the code units
    below 256 (Rocq's [ascii]).  Among them [String.prototype.trim] removes
    TAB, LF, VT, FF, CR, SPACE and NBSP. *)

Definition isWhiteSpace (c : ascii) : bool :=
  let n := nat_of_ascii c in
  (n =? 9) || (n =? 10) || (n =? 11) || (n =? 12) || (n =? 13)
  || (n =? 32) || (n =? 160).

Fixpoint trimStart (s : string) : string :=
  match s with
  | EmptyString => EmptyString
  | String c s' => if isWhiteSpace c then trimStart s' else s
  end.

Fixpoint trimEnd (s : string) : string :=
  match s with
  | EmptyString => EmptyString
  | String c s' =>
      match trimEnd s' with
      | EmptyString => if isWhiteSpace c then EmptyString else String c EmptyString
      | t => String c t
      end
  end.

Definition trim (s : string) : string := trimEnd (trimStart s).

(** [!s] on a string: the empty string is the only falsy one. *)
Definition str_truthy (s : string) : bool :=
  match s with EmptyString => false | _ => true end.

(** [a || b] on strings. *)
Definition str_or (a b : string) : string := if str_truthy a then a else b.

(** [str.startsWith(p)] *)
Definition startsWith (p s : string) : bool := String.prefix p s.

(** [String(n)] for an integer. *)
Definition num_to_string (z : Z) : string := pretty z.

(** ** Values read from a response body

    [response.json()] yields a JSON value; a property read yields a JSON
    value or [undefined] ([None]).  Numbers are kept to the integers. *)

Inductive Json : Type :=
| JNull
| JBool (b : bool)
| JNum (z : Z)
| JStr (s : string)
| JArr (xs : list Json)
| JObj (props : list (string * Json)).

Definition Value : Type := option Json.

(** ToBoolean *)
Definition truthy (v : Value) : bool :=
  match v with
  | None => false
  | Some JNull => false
  | Some (JBool b) => b
  | Some (JNum z) => negb (z =? 0)%Z
  | Some (JStr s) => str_truthy s
  | Some (JArr _) => true
  | Some (JObj _) => true
  end.

Fixpoint join_with (sep : string) (l : list string) : string :=
  match l with
  | [] => ""
  | [x] => x
  | x :: rest => x ++ sep ++ join_with sep rest
  end.

(** ToString: an array joins its elements with a comma, [null] elements
    printing as nothing; a plain object prints as [[object Object]]. *)
Fixpoint json_to_string (j : Json) : string :=
  match j with
  | JNull => "null"
  | JBool true => "true"
  | JBool false => "false"
  | JNum z => num_to_string z
  | JStr s => s
  | JArr xs =>
      join_with ","
        ((fix elems (l : list Json) : list string :=
            match l with
            | [] => []
            | JNull :: l' => "" :: elems l'
            | x :: l' => json_to_string x :: elems l'
            end) xs)
  | JObj _ => "[object Object]"
  end.

Definition to_string (v : Value) : string :=
  match v with
  | None => "undefined"
  | Some j => json_to_string j
  end.

(** [a || b] and [a && b] on values. *)
Definition val_or (a b : Value) : Value := if truthy a then a else b.
Definition val_and (a b : Value) : Value := if truthy a then b else a.

Fixpoint lookup_prop (key : string) (props : list (string * Json)) : Value :=
  match props with
  | [] => None
  | (k, v) :: rest => if String.eqb k key then Some v else lookup_prop key rest
  end.

(** ** Files, preview items, requests *)

Record File : Type := mkFile {
  file_name : string;
  file_type : string;          (* file.type *)
  file_dataURL : string        (* what readAsDataURL(file) produces *)
}.

(** A child of [previewGrid]: [dataset.index], the [src] of its image and
    the [alt] text; the index is also what its remove button passes to
    [removeFile]. *)
Record PreviewItem : Type := mkItem {
  item_index : nat;
  item_src : string;
  item_alt : string
}.

(** A [FileReader] whose [onload] has not fired yet, with the [index] its
    callback closed over. *)
Record Reader : Type := mkReader {
  reader_file : File;
  reader_index : nat
}.

(** The [FormData] posted to [/api/generate]. *)
Record FormData : Type := mkFormData {
  fd_prompt : string;
  fd_aspect_ratio : string;
  fd_images : list File
}.

Record JsError : Type := mkError {
  err_name : string;
  err_message : string
}.

(** [new Error(message)] *)
Definition Error (message : string) : JsError := mkError "Error" message.

Definition MAX_FILES : nat := 14.

(** ** The page state

    [uploadedFiles] and [isGenerating] are the module-level variables; the
    other fields are the properties of the DOM nodes that the handlers read
    or write (a [hidden] field is membership of the class [hidden]);
    [resultImage_src] is the value last assigned to [resultImage.src], its
    content attribute, not the URL the browser resolves it to;
    [readers] and [fetches] hold the asynchronous work not yet completed. *)

Record State : Type := mkState {
  uploadedFiles : list File;
  isGenerating : bool;
  promptInput_value : string;
  charCount_textContent : string;
  aspectRatio_value : string;
  generateBtn_disabled : bool;
  btnText_hidden : bool;
  btnLoader_hidden : bool;
  resultSection_hidden : bool;
  resultImage_src : string;
  errorMessage_hidden : bool;
  errorText_textContent : string;
  previewGrid : list PreviewItem;
  readers : list Reader;
  fetches : list FormData
}.

Definition set_uploadedFiles (v : list File) (s : State) : State :=
  mkState v (isGenerating s) (promptInput_value s) (charCount_textContent s)
    (aspectRatio_value s) (generateBtn_disabled s) (btnText_hidden s)
    (btnLoader_hidden s) (resultSection_hidden s) (resultImage_src s)
    (errorMessage_hidden s) (errorText_textContent s) (previewGrid s)
    (readers s) (fetches s).

Definition set_isGenerating (v : bool) (s : State) : State :=
  mkState (uploadedFiles s) v (promptInput_value s) (charCount_textContent s)
    (aspectRatio_value s) (generateBtn_disabled s) (btnText_hidden s)
    (btnLoader_hidden s) (resultSection_hidden s) (resultImage_src s)
    (errorMessage_hidden s) (errorText_textContent s) (previewGrid s)
    (readers s) (fetches s).

Definition set_promptInput_value (v : string) (s : State) : State :=
  mkState (uploadedFiles s) (isGenerating s) v (charCount_textContent s)
    (aspectRatio_value s) (generateBtn_disabled s) (btnText_hidden s)
    (btnLoader_hidden s) (resultSection_hidden s) (resultImage_src s)
    (errorMessage_hidden s) (errorText_textContent s) (previewGrid s)
    (readers s) (fetches s).

Definition set_charCount_textContent (v : string) (s : State) : State :=
  mkState (uploadedFiles s) (isGenerating s) (promptInput_value s) v
    (aspectRatio_value s) (generateBtn_disabled s) (btnText_hidden s)
    (btnLoader_hidden s) (resultSection_hidden s) (resultImage_src s)
    (errorMessage_hidden s) (errorText_textContent s) (previewGrid s)
    (readers s) (fetches s).

Definition set_aspectRatio_value (v : string) (s : State) : State :=
  mkState (uploadedFiles s) (isGenerating s) (promptInput_value s)
    (charCount_textContent s) v (generateBtn_disabled s) (btnText_hidden s)
    (btnLoader_hidden s) (resultSection_hidden s) (resultImage_src s)
    (errorMessage_hidden s) (errorText_textContent s) (previewGrid s)
    (readers s) (fetches s).

Definition set_generateBtn_disabled (v : bool) (s : State) : State :=
  mkState (uploadedFiles s) (isGenerating s) (promptInput_value s)
    (charCount_textContent s) (aspectRatio_value s) v (btnText_hidden s)
    (btnLoader_hidden s) (resultSection_hidden s) (resultImage_src s)
    (errorMessage_hidden s) (errorText_textContent s) (previewGrid s)
    (readers s) (fetches s).

Definition set_btnText_hidden (v : bool) (s : State) : State :=
  mkState (uploadedFiles s) (isGenerating s) (promptInput_value s)
    (charCount_textContent s) (aspectRatio_value s) (generateBtn_disabled s) v
    (btnLoader_hidden s) (resultSection_hidden s) (resultImage_src s)
    (errorMessage_hidden s) (errorText_textContent s) (previewGrid s)
    (readers s) (fetches s).

Definition set_btnLoader_hidden (v : bool) (s : State) : State :=
  mkState (uploadedFiles s) (isGenerating s) (promptInput_value s)
    (charCount_textContent s) (aspectRatio_value s) (generateBtn_disabled s)
    (btnText_hidden s) v (resultSection_hidden s) (resultImage_src s)
    (errorMessage_hidden s) (errorText_textContent s) (previewGrid s)
    (readers s) (fetches s).

Definition set_resultSection_hidden (v : bool) (s : State) : State :=
  mkState (uploadedFiles s) (isGenerating s) (promptInput_value s)
    (charCount_textContent s) (aspectRatio_value s) (generateBtn_disabled s)
    (btnText_hidden s) (btnLoader_hidden s) v (resultImage_src s)
    (errorMessage_hidden s) (errorText_textContent s) (previewGrid s)
    (readers s) (fetches s).

Definition set_resultImage_src (v : string) (s : State) : State :=
  mkState (uploadedFiles s) (isGenerating s) (promptInput_value s)
    (charCount_textContent s) (aspectRatio_value s) (generateBtn_disabled s)
    (btnText_hidden s) (btnLoader_hidden s) (resultSection_hidden s) v
    (errorMessage_hidden s) (errorText_textContent s) (previewGrid s)
    (readers s) (fetches s).

Definition set_errorMessage_hidden (v : bool) (s : State) : State :=
  mkState (uploadedFiles s) (isGenerating s) (promptInput_value s)
    (charCount_textContent s) (aspectRatio_value s) (generateBtn_disabled s)
    (btnText_hidden s) (btnLoader_hidden s) (resultSection_hidden s)
    (resultImage_src s) v (errorText_textContent s) (previewGrid s)
    (readers s) (fetches s).

Definition set_errorText_textContent (v : string) (s : State) : State :=
  mkState (uploadedFiles s) (isGenerating s) (promptInput_value s)
    (charCount_textContent s) (aspectRatio_value s) (generateBtn_disabled s)
    (btnText_hidden s) (btnLoader_hidden s) (resultSection_hidden s)
    (resultImage_src s) (errorMessage_hidden s) v (previewGrid s)
    (readers s) (fetches s).

Definition set_previewGrid (v : list PreviewItem) (s : State) : State :=
  mkState (uploadedFiles s) (isGenerating s) (promptInput_value s)
    (charCount_textContent s) (aspectRatio_value s) (generateBtn_disabled s)
    (btnText_hidden s) (btnLoader_hidden s) (resultSection_hidden s)
    (resultImage_src s) (errorMessage_hidden s) (errorText_textContent s) v
    (readers s) (fetches s).

Definition set_readers (v : list Reader) (s : State) : State :=
  mkState (uploadedFiles s) (isGenerating s) (promptInput_value s)
    (charCount_textContent s) (aspectRatio_value s) (generateBtn_disabled s)
    (btnText_hidden s) (btnLoader_hidden s) (resultSection_hidden s)
    (resultImage_src s) (errorMessage_hidden s) (errorText_textContent s)
    (previewGrid s) v (fetches s).

Definition set_fetches (v : list FormData) (s : State) : State :=
  mkState (uploadedFiles s) (isGenerating s) (promptInput_value s)
    (charCount_textContent s) (aspectRatio_value s) (generateBtn_disabled s)
    (btnText_hidden s) (btnLoader_hidden s) (resultSection_hidden s)
    (resultImage_src s) (errorMessage_hidden s) (errorText_textContent s)
    (previewGrid s) (readers s) v.

(** ** The monad of handler bodies

    A statement runs from a state to a completion and a state.  A thrown
    exception keeps every assignment made before it. *)

Inductive Completion (A : Type) : Type :=
| Normal (a : A)
| Throw (e : JsError).
Arguments Normal {A} a.
Arguments Throw {A} e.

Definition JS (A : Type) : Type := State -> Completion A * State.

#[global] Instance JS_ret : MRet JS := fun A a st => (Normal a, st).

#[global] Instance JS_bind : MBind JS := fun A B f m st =>
  match m st with
  | (Normal a, st') => f a st'
  | (Throw e, st') => (Throw e, st')
  end.

Definition throw {A : Type} (e : JsError) : JS A := fun st => (Throw e, st).

Definition gets {A : Type} (f : State -> A) : JS A :=
  fun st => (Normal (f st), st).

Definition modify (f : State -> State) : JS unit :=
  fun st => (Normal tt, f st).

(** [try { body } catch (error) { handler }] *)
Definition try_catch (body : JS unit) (handler : JsError -> JS unit) : JS unit :=
  fun st =>
    match body st with
    | (Throw e, st') => handler e st'
    | r => r
    end.

(** [try { body } catch (error) { handler } finally { finalizer }]: the
    finalizer runs on every path; the completion is that of the [try] and
    [catch] part unless the finalizer throws. *)
Definition try_catch_finally (body : JS unit) (handler : JsError -> JS unit)
    (finalizer : JS unit) : JS unit :=
  fun st =>
    let r := try_catch body handler st in
    match finalizer (snd r) with
    | (Normal _, st'') => (fst r, st'')
    | (Throw e, st'') => (Throw e, st'')
    end.

(** The empty statement, and a plain [return;]. *)
Definition skip : JS unit := mret tt.

(** [array.forEach((x, index) => f)], the callback seeing the position. *)
Fixpoint forEach_from {A : Type} (i : nat) (l : list A)
    (f : A -> nat -> JS unit) : JS unit :=
  match l with
  | [] => skip
  | x :: rest => f x i;; forEach_from (S i) rest f
  end.

Definition forEach {A : Type} (l : list A) (f : A -> nat -> JS unit) : JS unit :=
  forEach_from 0 l f.

(** The state a handler leaves behind, whatever its completion. *)
Definition exec {A : Type} (m : JS A) (st : State) : State := snd (m st).

(** ** Notification surface *)

(** [showError(message)]; the delayed [scrollIntoView] changes no field. *)
Definition showError (message : string) : JS unit :=
  modify (set_errorText_textContent message);;
  modify (set_errorMessage_hidden false).

(** [hideError()] *)
Definition hideError : JS unit :=
  modify (set_errorMessage_hidden true);;
  modify (set_errorText_textContent "").

(** ** Generate button *)

(** [updateGenerateButton()] *)
Definition updateGenerateButton : JS unit :=
  value ← gets promptInput_value;
  let hasPrompt := 0 <? String.length (trim value) in
  generating ← gets isGenerating;
  modify (set_generateBtn_disabled (negb hasPrompt || generating)).

(** [setLoading(loading)] *)
Definition setLoading (loading : bool) : JS unit :=
  if loading then
    modify (set_generateBtn_disabled true);;
    modify (set_btnText_hidden true);;
    modify (set_btnLoader_hidden false)
  else
    modify (set_btnText_hidden false);;
    modify (set_btnLoader_hidden true);;
    updateGenerateButton.

(** ** Attachments and their previews *)

(** [files.slice(0, end)]: a negative [end] counts from the end of the
    array. *)
Definition slice0 {A : Type} (l : list A) (end_ : Z) : list A :=
  let len := Z.of_nat (length l) in
  let final := if (end_ <? 0)%Z then Z.max (len + end_) 0 else Z.min end_ len in
  take (Z.to_nat final) l.

(** [createPreviewItem(file, index)]: starts a reader; nothing is rendered
    before its [onload] fires. *)
Definition createPreviewItem (file : File) (index : nat) : JS unit :=
  rs ← gets readers;
  modify (set_readers (rs ++ [mkReader file index])).

(** The [reader.onload] callback of [createPreviewItem]: builds the item
    and appends it to the grid. *)
Definition reader_onload (r : Reader) : JS unit :=
  let index := reader_index r in
  let imageSrc := file_dataURL (reader_file r) in
  let item := mkItem index imageSrc ("Preview " ++ pretty (index + 1)) in
  grid ← gets previewGrid;
  modify (set_previewGrid (grid ++ [item])).

(** The callback of the [forEach] in [addFiles]: push the file, start its
    preview with the position it now has. *)
Definition addFiles_each (file : File) (_ : nat) : JS unit :=
  fs ← gets uploadedFiles;
  modify (set_uploadedFiles (fs ++ [file]));;
  n ← gets (fun st => length (uploadedFiles st));
  createPreviewItem file (n - 1).

(** [addFiles(files)] *)
Definition addFiles (files : list File) : JS unit :=
  len ← gets (fun st => length (uploadedFiles st));
  let remainingSlots := (Z.of_nat MAX_FILES - Z.of_nat len)%Z in
  let filesToAdd := slice0 files remainingSlots in
  (if (remainingSlots <? Z.of_nat (length files))%Z then
     showError ("Maximum " ++ num_to_string (Z.of_nat MAX_FILES)
                ++ " images allowed. Only " ++ num_to_string remainingSlots
                ++ " more can be added.")
   else skip);;
  forEach filesToAdd addFiles_each;;
  updateGenerateButton;;
  hideError.

(** [handleFileSelect(e)], [files] being [e.target.files]. *)
Definition handleFileSelect (files : list File) : JS unit :=
  addFiles files.

(** [handleDrop(e)], [files] being [e.dataTransfer.files]. *)
Definition handleDrop (files : list File) : JS unit :=
  addFiles (filter (fun file => startsWith "image/" (file_type file) = true) files).

(** [rebuildPreviewGrid()] *)
Definition rebuildPreviewGrid : JS unit :=
  modify (set_previewGrid []);;
  fs ← gets uploadedFiles;
  forEach fs (fun file index => createPreviewItem file index).

(** [removeFile(index)]; [splice(index, 1)] removes nothing when [index]
    is past the end. *)
Definition removeFile (index : nat) : JS unit :=
  fs ← gets uploadedFiles;
  modify (set_uploadedFiles (delete index fs));;
  rebuildPreviewGrid;;
  updateGenerateButton.

(** ** Prompt *)

(** [handlePromptInput()] *)
Definition handlePromptInput : JS unit :=
  value ← gets promptInput_value;
  modify (set_charCount_textContent (pretty (String.length value)));;
  updateGenerateButton;;
  hideError.

(** The click handler of a [.prompt-item], [prompt] being its
    [dataset.prompt]. *)
Definition promptItem_click (prompt : string) : JS unit :=
  modify (set_promptInput_value prompt);;
  handlePromptInput.

(** ** Generation *)

(** How a pending [fetch('/api/generate')] ends: the promise rejects (no
    connection), or a response arrives whose body either fails to parse
    ([response.json()] rejects) or parses to [data]; [ok] is
    [response.ok]. *)
Inductive FetchOutcome : Type :=
| FetchRejected (e : JsError)
| JsonRejected (ok : bool) (e : JsError)
| Responded (ok : bool) (data : Json).

(** [data.key].  Reading a property of [null] throws; the keys read here
    ([detail], [success], [image], [api_configured]) are own properties of
    objects only. *)
Definition getProp (data : Json) (key : string) : JS Value :=
  match data with
  | JNull =>
      throw (mkError "TypeError"
               ("Cannot read properties of null (reading '" ++ key ++ "')"))
  | JObj props => mret (lookup_prop key props)
  | _ => mret None
  end.

(** [new Error(v)]: the message is [ToString v], and empty for
    [undefined]. *)
Definition Error_of (v : Value) : JsError :=
  match v with
  | None => Error ""
  | Some j => Error (json_to_string j)
  end.

(** [formData.append('images', file)] *)
Definition append_image (fd : FormData) (file : File) : FormData :=
  mkFormData (fd_prompt fd) (fd_aspect_ratio fd) (fd_images fd ++ [file]).

(** [fetch('/api/generate', { method: 'POST', body: formData })]: the
    request is sent and stays pending until a [FetchOutcome] arrives. *)
Definition fetch_generate (formData : FormData) : JS unit :=
  pending ← gets fetches;
  modify (set_fetches (pending ++ [formData])).

(** [handleGenerate()] up to its first [await]: the checks, the switch to
    the loading state and the request. *)
Definition handleGenerate : JS unit :=
  prompt ← gets (fun st => trim (promptInput_value st));
  if negb (str_truthy prompt) then
    showError "Please enter a prompt to generate an image."
  else
    generating ← gets isGenerating;
    if (generating : bool) then skip
    else
      modify (set_isGenerating true);;
      setLoading true;;
      hideError;;
      modify (set_resultSection_hidden true);;
      ratio ← gets aspectRatio_value;
      fs ← gets uploadedFiles;
      let formData := foldl append_image (mkFormData prompt ratio []) fs in
      fetch_generate formData.

(** [await fetch(...)] followed by [await response.json()]: the pair of
    [response.ok] and the parsed body, or the rejection thrown at the
    [await]. *)
Definition await_response (o : FetchOutcome) : JS (bool * Json) :=
  match o with
  | FetchRejected e => throw e
  | JsonRejected _ e => throw e
  | Responded ok data => mret (ok, data)
  end.

(** The [try] block of [handleGenerate()] from the point where the awaited
    [fetch] and [response.json()] have settled. *)
Definition settled_body (o : FetchOutcome) : JS unit :=
  '(ok, data) ← await_response o;
  (if negb ok then
     detail ← getProp data "detail";
     throw (Error_of (val_or detail (Some (JStr "Failed to generate image"))))
   else skip);;
  success ← getProp data "success";
  cond ← (if truthy success then getProp data "image" else mret success);
  if truthy cond then
    image ← getProp data "image";
    modify (set_resultImage_src (to_string image));;
    modify (set_resultSection_hidden false)
  else
    throw (Error "No image was generated").

(** Its [catch] block; [console.error] changes no field. *)
Definition settled_catch (error : JsError) : JS unit :=
  showError (str_or (err_message error)
               "An error occurred while generating the image.").

(** Its [finally] block. *)
Definition settled_finally : JS unit :=
  modify (set_isGenerating false);;
  setLoading false.

(** [handleGenerate()] after its [await]s. *)
Definition handleGenerate_settled (o : FetchOutcome) : JS unit :=
  try_catch_finally (settled_body o) settled_catch settled_finally.

(** [handleNewGeneration()] *)
Definition handleNewGeneration : JS unit :=
  modify (set_uploadedFiles []);;
  modify (set_previewGrid []);;
  modify (set_promptInput_value "");;
  modify (set_charCount_textContent "0");;
  modify (set_resultSection_hidden true);;
  modify (set_resultImage_src "");;
  hideError;;
  modify (set_isGenerating false);;
  updateGenerateButton.

(** ** Start-up *)

(** How the [fetch('/api/health')] of [checkApiHealth()] ends. *)
Inductive HealthOutcome : Type :=
| HealthRejected (e : JsError)
| HealthResponded (data : Json).

(** [await fetch('/api/health')] followed by [await response.json()]. *)
Definition await_health (o : HealthOutcome) : JS Json :=
  match o with
  | HealthRejected e => throw e
  | HealthResponded data => mret data
  end.

(** [checkApiHealth()] once its request has settled. *)
Definition checkApiHealth_settled (o : HealthOutcome) : JS unit :=
  try_catch
    (data ← await_health o;
     configured ← getProp data "api_configured";
     if negb (truthy configured) then
       showError "API key not configured. Please set GOOGLE_API_KEY environment variable."
     else skip)
    (fun _ =>
       showError "Unable to connect to the server. Please try again later.").

(** Modelled from the spec: the page as [index.html] delivers it, which is
    not among the sources.  The spec gives the initial values as those a
    reset restores: no attachment, empty prompt, result and error hidden,
    trigger control disabled; the aspect ratio is the first of its closed
    set. *)
Definition initial : State := {|
  uploadedFiles := [];
  isGenerating := false;
  promptInput_value := "";
  charCount_textContent := "0";
  aspectRatio_value := "1:1";
  generateBtn_disabled := true;
  btnText_hidden := false;
  btnLoader_hidden := true;
  resultSection_hidden := true;
  resultImage_src := "";
  errorMessage_hidden := true;
  errorText_textContent := "";
  previewGrid := [];
  readers := [];
  fetches := []
|}.

(** ** The event loop

    One event is one task of the browser: a user action dispatched to its
    listener, or the completion of pending asynchronous work.  Pending
    readers and requests complete in any order: the event names the
    position of the one that completes. *)
Inductive Event : Type :=
| FileSelect (files : list File)
| Drop (files : list File)
| PromptEdit (value : string)
| PromptItemClick (prompt : string)
| AspectRatioChange (value : string)
| GenerateClick
| NewGenerationClick
| RemoveClick (k : nat)
| ReaderLoad (k : nat)
| FetchSettled (k : nat) (o : FetchOutcome)
| HealthSettled (o : HealthOutcome).

Definition dispatch (ev : Event) : JS unit :=
  match ev with
  | FileSelect files => handleFileSelect files
  | Drop files => handleDrop files
  | PromptEdit value =>
      (* the edit changes the field, then the input event fires *)
      modify (set_promptInput_value value);;
      handlePromptInput
  | PromptItemClick prompt => promptItem_click prompt
  | AspectRatioChange value => modify (set_aspectRatio_value value)
  | GenerateClick => handleGenerate
  | NewGenerationClick => handleNewGeneration
  | RemoveClick k =>
      (* the remove button of the k-th rendered item *)
      grid ← gets previewGrid;
      match grid !! k with
      | Some item => removeFile (item_index item)
      | None => skip
      end
  | ReaderLoad k =>
      rs ← gets readers;
      match rs !! k with
      | Some r => modify (set_readers (delete k rs));; reader_onload r
      | None => skip
      end
  | FetchSettled k o =>
      pending ← gets fetches;
      match pending !! k with
      | Some _ => modify (set_fetches (delete k pending));; handleGenerate_settled o
      | None => skip
      end
  | HealthSettled o => checkApiHealth_settled o
  end.

Definition step (st : State) (ev : Event) : State := exec (dispatch ev) st.

Definition run (evs : list Event) (st : State) : State := foldl step st evs.

(** The states the page can be in. *)
Definition reachable (st : State) : Prop := exists evs, st = run evs initial.

(** ** Observations *)

(** The trigger control accepts a click. *)
Definition enabled (st : State) : bool := negb (generateBtn_disabled st).

(** The trimmed prompt is non-empty, as [updateGenerateButton] tests it. *)
Definition hasPrompt (st : State) : bool :=
  0 <? String.length (trim (promptInput_value st)).

(** * Vocabulary of the statements *)

(** ** Attachments *)

(** [remainingSlots] and [filesToAdd] as [addFiles] computes them. *)
Definition remainingSlots (st : State) : Z :=
  (Z.of_nat MAX_FILES - Z.of_nat (length (uploadedFiles st)))%Z.

Definition filesToAdd (files : list File) (st : State) : list File :=
  slice0 files (remainingSlots st).

(** The text of the capacity notice. *)
Definition capacity_notice (st : State) : string :=
  "Maximum " ++ num_to_string (Z.of_nat MAX_FILES)
  ++ " images allowed. Only " ++ num_to_string (remainingSlots st)
  ++ " more can be added.".

(** [addFiles] up to and including its [if]: the notice is on display when
    the batch is larger than the room left. *)
Definition addFiles_check (files : list File) : JS unit :=
  len ← gets (fun st => length (uploadedFiles st));
  let remainingSlots := (Z.of_nat MAX_FILES - Z.of_nat len)%Z in
  if (remainingSlots <? Z.of_nat (length files))%Z then
    showError ("Maximum " ++ num_to_string (Z.of_nat MAX_FILES)
               ++ " images allowed. Only " ++ num_to_string remainingSlots
               ++ " more can be added.")
  else skip.

Definition within_capacity (st : State) : Prop :=
  length (uploadedFiles st) <= MAX_FILES.

(** ** Previews *)

(** The readers started for the files [l] when the first of them gets
    the index [base]. *)
Definition readers_for (base : nat) (l : list File) : list Reader :=
  imap (fun j file => mkReader file (base + j)) l.

(** The item that the [onload] of a reader appends. *)
Definition item_of (r : Reader) : PreviewItem :=
  mkItem (reader_index r) (file_dataURL (reader_file r))
    ("Preview " ++ pretty (reader_index r + 1)).

(** The grid shows the attachments, each once, in the order of the
    collection and with its position as index. *)
Definition rendered_in_order (st : State) : Prop :=
  previewGrid st = map item_of (readers_for 0 (uploadedFiles st)).

(** ** Trigger control and requests *)

(** The button follows the prompt and the flag. *)
Definition button_sync (st : State) : Prop :=
  generateBtn_disabled st = negb (hasPrompt st) || isGenerating st.

(** While the flag is set, a request is pending. *)
Definition busy_has_request (st : State) : Prop :=
  isGenerating st = true -> fetches st <> [].

(** The flag is set exactly while one request is pending. *)
Definition guard_sync (st : State) : Prop :=
  length (fetches st) = if isGenerating st then 1 else 0.

(** The request [handleGenerate] builds in the state [st]. *)
Definition formData_of (st : State) : FormData :=
  mkFormData (trim (promptInput_value st)) (aspectRatio_value st) (uploadedFiles st).

(** ** Responses *)

(** [data.key] for a body other than [null]. *)
Definition body_prop (data : Json) (key : string) : Value :=
  match data with
  | JObj props => lookup_prop key props
  | _ => None
  end.

(** The outcomes that take the success branch of [handleGenerate]: a
    response with [response.ok] whose body has a truthy [success] and a
    truthy [image]. *)
Definition succeeds (o : FetchOutcome) : bool :=
  match o with
  | Responded true data =>
      truthy (body_prop data "success") && truthy (body_prop data "image")
  | _ => false
  end.

(** The state in which the [finally] block of [handleGenerate] starts. *)
Definition before_finally (o : FetchOutcome) (st : State) : State :=
  exec (try_catch (settled_body o) settled_catch) st.

(** ** Frames *)

(** [keeps f m]: running [m] never changes the observation [f], whether
    [m] completes or throws. *)
Definition keeps {A B : Type} (f : State -> B) (m : JS A) : Prop :=
  forall st, f (exec m st) = f st.

(** ** The earlier revision of the controller

    The source file also carries the revision that preceded the flag
    [isGenerating]: its button update looks at the prompt alone and its
    [setLoading] writes the button directly. *)
Module Earlier.

(** [updateGenerateButton()] of the earlier revision; the images it also
    looks at do not enter the result. *)
Definition updateGenerateButton : JS unit :=
  value ← gets promptInput_value;
  let hasPrompt := 0 <? String.length (trim value) in
  modify (set_generateBtn_disabled (negb hasPrompt)).

(** [setLoading(isLoading)] of the earlier revision. *)
Definition setLoading (isLoading : bool) : JS unit :=
  modify (set_generateBtn_disabled isLoading);;
  if isLoading then
    modify (set_btnText_hidden true);;
    modify (set_btnLoader_hidden false)
  else
    modify (set_btnText_hidden false);;
    modify (set_btnLoader_hidden true).

End Earlier.

(** * Further vocabulary *)

(** ** Prompt, counter and error surface *)

(** Every code unit of the string is white space. *)
Fixpoint all_whitespace (s : string) : bool :=
  match s with
  | EmptyString => true
  | String c s' => isWhiteSpace c && all_whitespace s'
  end.

(** The counter shows the length of the prompt. *)
Definition counter_sync (st : State) : Prop :=
  charCount_textContent st = pretty (String.length (promptInput_value st)).

(** The error surface is hidden exactly when it carries no text. *)
Definition error_consistent (st : State) : Prop :=
  errorMessage_hidden st = negb (str_truthy (errorText_textContent st)).

(** ** Requests and the loading indicator *)

(** What the backend expects of a request: a prompt that is not empty and
    carries no white space around it, and no more images than the
    collection can hold. *)
Definition request_ok (fd : FormData) : Prop :=
  fd_prompt fd <> "" /\ trim (fd_prompt fd) = fd_prompt fd /\
  length (fd_images fd) <= MAX_FILES.

(** The button shows its text or its spinner, never both, and the spinner
    only while a request is pending. *)
Definition loader_sync (st : State) : Prop :=
  btnText_hidden st = negb (btnLoader_hidden st) /\
  (btnLoader_hidden st = false -> fetches st <> []).

(** ** Dropped files *)

(** The test of the [filter] in [handleDrop]. *)
Definition isImage (file : File) : bool := startsWith "image/" (file_type file).

(** ** Busy page and complete previews *)

(** While the flag is set the page shows the loading state: spinner in
    place of the button text, button disabled, no result on display. *)
Definition busy_view (st : State) : Prop :=
  isGenerating st = true ->
  resultSection_hidden st = true /\ btnLoader_hidden st = false /\
  btnText_hidden st = true /\ generateBtn_disabled st = true.

(** Every attachment has exactly one preview, rendered or still being
    decoded, and that preview carries the position of the attachment. *)
Definition previews_complete (st : State) : Prop :=
  previewGrid st ++ map item_of (readers st)
  ≡ₚ map item_of (readers_for 0 (uploadedFiles st)).

(** The events that take nothing out of the collection. *)
Definition keeps_attachments (ev : Event) : bool :=
  match ev with
  | RemoveClick _ | NewGenerationClick => false
  | _ => true
  end.

(** * The rest of the page: viewer, suggested prompts, share

    The nodes below are touched by no handler of the generation workflow;
    they are kept in a record of their own, beside [State]. *)

Record Chrome : Type := mkChrome {
  fullscreenImage_src : string;
  fullscreenModal_hidden : bool;
  body_overflow : string;           (* document.body.style.overflow *)
  promptsList_hidden : bool;
  promptsToggle_active : bool;
  uploadArea_dragover : bool
}.

(** [openFullscreen(imageSrc)] *)
Definition openFullscreen (imageSrc : string) (c : Chrome) : Chrome :=
  mkChrome imageSrc false "hidden"
    (promptsList_hidden c) (promptsToggle_active c) (uploadArea_dragover c).

(** [closeFullscreen()] *)
Definition closeFullscreen (c : Chrome) : Chrome :=
  mkChrome (fullscreenImage_src c) true ""
    (promptsList_hidden c) (promptsToggle_active c) (uploadArea_dragover c).

(** [togglePromptsList()]: [classList.toggle] on both nodes. *)
Definition togglePromptsList (c : Chrome) : Chrome :=
  mkChrome (fullscreenImage_src c) (fullscreenModal_hidden c) (body_overflow c)
    (negb (promptsList_hidden c)) (negb (promptsToggle_active c))
    (uploadArea_dragover c).

(** The end of the click handler of a [.prompt-item]: the list is closed. *)
Definition closePromptsList (c : Chrome) : Chrome :=
  mkChrome (fullscreenImage_src c) (fullscreenModal_hidden c) (body_overflow c)
    true false (uploadArea_dragover c).

(** [uploadArea.classList.add('dragover')] and [remove('dragover')]. *)
Definition set_dragover (v : bool) (c : Chrome) : Chrome :=
  mkChrome (fullscreenImage_src c) (fullscreenModal_hidden c) (body_overflow c)
    (promptsList_hidden c) (promptsToggle_active c) v.

(** The click listener of [resultContainer]. *)
Definition resultContainer_click (st : State) (c : Chrome) : Chrome :=
  if str_truthy (resultImage_src st) then openFullscreen (resultImage_src st) c
  else c.

(** The click listener of [fullscreenModal]; [on_modal] is
    [e.target === fullscreenModal]. *)
Definition fullscreenModal_click (on_modal : bool) (c : Chrome) : Chrome :=
  if on_modal then closeFullscreen c else c.

(** The [keydown] listener of the document. *)
Definition document_keydown (key : string) (c : Chrome) : Chrome :=
  if String.eqb key "Escape" && negb (fullscreenModal_hidden c)
  then closeFullscreen c
  else c.

(** The whole page. *)
Record Page : Type := mkPage {
  doc : State;
  chrome : Chrome
}.

(** The events of the whole page: those of the workflow, and the user
    actions on the viewer, on the list of suggested prompts and on the
    upload area. *)
Inductive PageEvent : Type :=
| Workflow (ev : Event)
| ResultContainerClick
| PreviewImageClick (k : nat)
| FullscreenCloseClick
| FullscreenModalClick (on_modal : bool)
| KeyDown (key : string)
| PromptsToggleClick
| DragOver
| DragLeave.

Definition page_step (p : Page) (ev : PageEvent) : Page :=
  match ev with
  | Workflow (PromptItemClick prompt) =>
      (* value, handlePromptInput(), then the list is closed *)
      mkPage (step (doc p) (PromptItemClick prompt)) (closePromptsList (chrome p))
  | Workflow (Drop files) =>
      (* handleDrop removes the highlight before it adds the files *)
      mkPage (step (doc p) (Drop files)) (set_dragover false (chrome p))
  | Workflow ev => mkPage (step (doc p) ev) (chrome p)
  | ResultContainerClick =>
      mkPage (doc p) (resultContainer_click (doc p) (chrome p))
  | PreviewImageClick k =>
      (* the click listener of the image of the k-th rendered item *)
      match previewGrid (doc p) !! k with
      | Some item => mkPage (doc p) (openFullscreen (item_src item) (chrome p))
      | None => p
      end
  | FullscreenCloseClick => mkPage (doc p) (closeFullscreen (chrome p))
  | FullscreenModalClick on_modal =>
      mkPage (doc p) (fullscreenModal_click on_modal (chrome p))
  | KeyDown key => mkPage (doc p) (document_keydown key (chrome p))
  | PromptsToggleClick => mkPage (doc p) (togglePromptsList (chrome p))
  | DragOver => mkPage (doc p) (set_dragover true (chrome p))
  | DragLeave => mkPage (doc p) (set_dragover false (chrome p))
  end.

Definition page_run (evs : list PageEvent) (p : Page) : Page :=
  foldl page_step p evs.

(** The page scrolls exactly when the viewer is closed. *)
Definition scroll_lock_sync (c : Chrome) : Prop :=
  body_overflow c = (if fullscreenModal_hidden c then "" else "hidden").

(** The toggle is marked active exactly when the list is shown. *)
Definition prompts_sync (c : Chrome) : Prop :=
  promptsToggle_active c = negb (promptsList_hidden c).

(** ** Share *)







(** * Properties *)

(** ** Strings and values *)

Lemma str_truthy_length (s : string) : (0 <? String.length s) = str_truthy s.
Proof. destruct s; reflexivity. Qed.

Lemma str_truthy_nonempty (s : string) : str_truthy s = true <-> s <> "".
Proof. destruct s; simpl; split; congruence. Qed.

Lemma str_or_truthy (a b : string) : str_truthy b = true -> str_truthy (str_or a b) = true.
Proof. unfold str_or. destruct (str_truthy a) eqn:E; auto. Qed.

Lemma hasPrompt_nonempty (st : State) :
  hasPrompt st = true <-> trim (promptInput_value st) <> "".
Proof. unfold hasPrompt. rewrite str_truthy_length. apply str_truthy_nonempty. Qed.

(** ** Closed forms of the handlers without branches on data *)

Lemma showError_eq (message : string) (st : State) :
  showError message st =
  (Normal tt, set_errorMessage_hidden false (set_errorText_textContent message st)).
Proof. reflexivity. Qed.

Lemma hideError_eq (st : State) :
  hideError st =
  (Normal tt, set_errorText_textContent "" (set_errorMessage_hidden true st)).
Proof. reflexivity. Qed.

Lemma updateGenerateButton_eq (st : State) :
  updateGenerateButton st =
  (Normal tt, set_generateBtn_disabled (negb (hasPrompt st) || isGenerating st) st).
Proof. reflexivity. Qed.

(** ** Sequencing *)

Lemma bind_Normal {A B : Type} (m : JS A) (k : A -> JS B) (st st' : State) (a : A) :
  m st = (Normal a, st') -> (m ≫= k) st = k a st'.
Proof. intros H. unfold mbind, JS_bind. now rewrite H. Qed.

Lemma forEach_from_cons {A : Type} (i : nat) (x : A) (l : list A)
    (f : A -> nat -> JS unit) :
  forEach_from i (x :: l) f = (f x i;; forEach_from (S i) l f).
Proof. reflexivity. Qed.

Lemma addFiles_each_eq (file : File) (i : nat) (st : State) :
  addFiles_each file i st =
  (Normal tt,
   set_readers (readers st ++ [mkReader file (length (uploadedFiles st ++ [file]) - 1)])
     (set_uploadedFiles (uploadedFiles st ++ [file]) st)).
Proof. reflexivity. Qed.

Lemma createPreviewItem_eq (file : File) (index : nat) (st : State) :
  createPreviewItem file index st =
  (Normal tt, set_readers (readers st ++ [mkReader file index]) st).
Proof. reflexivity. Qed.

(** ** The two loops that start previews *)

Lemma readers_for_cons (base : nat) (f : File) (l : list File) :
  readers_for base (f :: l) = mkReader f base :: readers_for (S base) l.
Proof.
  unfold readers_for. cbn. rewrite Nat.add_0_r. f_equal.
  apply imap_ext. intros j x _. cbn. f_equal. lia.
Qed.

Lemma readers_for_files (base : nat) (l : list File) :
  map reader_file (readers_for base l) = l.
Proof.
  revert base. induction l as [|f l IH]; intros base; [reflexivity|].
  rewrite readers_for_cons. cbn. now rewrite IH.
Qed.

Lemma readers_for_index (base : nat) (l : list File) :
  map reader_index (readers_for base l) = seq base (length l).
Proof.
  revert base. induction l as [|f l IH]; intros base; [reflexivity|].
  rewrite readers_for_cons. cbn. now rewrite IH.
Qed.

Lemma addFiles_loop_eq (l : list File) : forall (i : nat) (st : State),
  forEach_from i l addFiles_each st =
  (Normal tt,
   set_readers (readers st ++ readers_for (length (uploadedFiles st)) l)
     (set_uploadedFiles (uploadedFiles st ++ l) st)).
Proof.
  induction l as [|f l IH]; intros i st.
  - destruct st. unfold readers_for. cbn. now rewrite !app_nil_r.
  - rewrite forEach_from_cons.
    rewrite (bind_Normal _ _ _ _ _ (addFiles_each_eq f i st)).
    rewrite IH. f_equal. rewrite readers_for_cons.
    destruct st. unfold set_readers, set_uploadedFiles. cbn.
    rewrite <- !app_assoc. cbn. rewrite length_app. cbn.
    replace (length uploadedFiles0 + 1 - 1) with (length uploadedFiles0) by lia.
    replace (length uploadedFiles0 + 1) with (S (length uploadedFiles0)) by lia.
    reflexivity.
Qed.

Lemma rebuild_loop_eq (l : list File) : forall (i : nat) (st : State),
  forEach_from i l createPreviewItem st =
  (Normal tt, set_readers (readers st ++ readers_for i l) st).
Proof.
  induction l as [|f l IH]; intros i st.
  - destruct st. unfold readers_for. cbn. now rewrite app_nil_r.
  - rewrite forEach_from_cons.
    rewrite (bind_Normal _ _ _ _ _ (createPreviewItem_eq f i st)).
    rewrite IH. f_equal. rewrite readers_for_cons.
    destruct st. unfold set_readers. cbn. now rewrite <- app_assoc.
Qed.

(** ** Closed forms of [addFiles] and [removeFile] *)

Lemma addFiles_check_eq (files : list File) (st : State) :
  addFiles_check files st =
  (Normal tt,
   if (remainingSlots st <? Z.of_nat (length files))%Z
   then set_errorMessage_hidden false
          (set_errorText_textContent (capacity_notice st) st)
   else st).
Proof.
  unfold addFiles_check, remainingSlots, capacity_notice.
  unfold mbind, JS_bind, gets.
  destruct (_ <? _)%Z; reflexivity.
Qed.

Lemma addFiles_split (files : list File) (st : State) :
  addFiles files st =
  (addFiles_check files;;
   forEach (filesToAdd files st) addFiles_each;;
   updateGenerateButton;;
   hideError) st.
Proof.
  unfold addFiles, addFiles_check, filesToAdd, remainingSlots.
  unfold mbind, JS_bind, gets.
  destruct (_ <? _)%Z; reflexivity.
Qed.

Lemma addFiles_eq (files : list File) (st : State) :
  addFiles files st =
  (Normal tt,
   {| uploadedFiles := uploadedFiles st ++ filesToAdd files st;
      isGenerating := isGenerating st;
      promptInput_value := promptInput_value st;
      charCount_textContent := charCount_textContent st;
      aspectRatio_value := aspectRatio_value st;
      generateBtn_disabled := negb (hasPrompt st) || isGenerating st;
      btnText_hidden := btnText_hidden st;
      btnLoader_hidden := btnLoader_hidden st;
      resultSection_hidden := resultSection_hidden st;
      resultImage_src := resultImage_src st;
      errorMessage_hidden := true;
      errorText_textContent := "";
      previewGrid := previewGrid st;
      readers := readers st
                 ++ readers_for (length (uploadedFiles st)) (filesToAdd files st);
      fetches := fetches st |}).
Proof.
  rewrite addFiles_split.
  rewrite (bind_Normal _ _ _ _ _ (addFiles_check_eq files st)).
  unfold forEach.
  rewrite (bind_Normal _ _ _ _ _ (addFiles_loop_eq _ 0 _)).
  rewrite (bind_Normal _ _ _ _ _ (updateGenerateButton_eq _)).
  rewrite hideError_eq.
  destruct (_ <? _)%Z; destruct st; reflexivity.
Qed.

Lemma rebuildPreviewGrid_eq (st : State) :
  rebuildPreviewGrid st =
  (Normal tt,
   set_readers (readers st ++ readers_for 0 (uploadedFiles st))
     (set_previewGrid [] st)).
Proof.
  unfold rebuildPreviewGrid, forEach.
  unfold mbind at 1, JS_bind at 1. cbn [modify].
  unfold mbind at 1, JS_bind at 1. cbn [gets].
  rewrite rebuild_loop_eq. reflexivity.
Qed.

Lemma removeFile_eq (index : nat) (st : State) :
  removeFile index st =
  (Normal tt,
   {| uploadedFiles := delete index (uploadedFiles st);
      isGenerating := isGenerating st;
      promptInput_value := promptInput_value st;
      charCount_textContent := charCount_textContent st;
      aspectRatio_value := aspectRatio_value st;
      generateBtn_disabled := negb (hasPrompt st) || isGenerating st;
      btnText_hidden := btnText_hidden st;
      btnLoader_hidden := btnLoader_hidden st;
      resultSection_hidden := resultSection_hidden st;
      resultImage_src := resultImage_src st;
      errorMessage_hidden := errorMessage_hidden st;
      errorText_textContent := errorText_textContent st;
      previewGrid := [];
      readers := readers st ++ readers_for 0 (delete index (uploadedFiles st));
      fetches := fetches st |}).
Proof.
  unfold removeFile.
  unfold mbind at 1, JS_bind at 1. cbn [gets].
  unfold mbind at 1, JS_bind at 1. cbn [modify].
  rewrite (bind_Normal _ _ _ _ _ (rebuildPreviewGrid_eq _)).
  rewrite updateGenerateButton_eq.
  destruct st; reflexivity.
Qed.

Lemma handlePromptInput_eq (st : State) :
  handlePromptInput st =
  (Normal tt,
   set_errorText_textContent ""
     (set_errorMessage_hidden true
        (set_generateBtn_disabled (negb (hasPrompt st) || isGenerating st)
           (set_charCount_textContent
              (pretty (String.length (promptInput_value st))) st)))).
Proof. reflexivity. Qed.

Lemma handleNewGeneration_eq (st : State) :
  handleNewGeneration st =
  (Normal tt,
   {| uploadedFiles := [];
      isGenerating := false;
      promptInput_value := "";
      charCount_textContent := "0";
      aspectRatio_value := aspectRatio_value st;
      generateBtn_disabled := true;
      btnText_hidden := btnText_hidden st;
      btnLoader_hidden := btnLoader_hidden st;
      resultSection_hidden := true;
      resultImage_src := "";
      errorMessage_hidden := true;
      errorText_textContent := "";
      previewGrid := [];
      readers := readers st;
      fetches := fetches st |}).
Proof. reflexivity. Qed.

(** ** Closed forms of [handleGenerate] *)

Lemma foldl_append_image (fs : list File) : forall fd : FormData,
  foldl append_image fd fs =
  mkFormData (fd_prompt fd) (fd_aspect_ratio fd) (fd_images fd ++ fs).
Proof.
  induction fs as [|f fs IH]; intros fd; cbn.
  - rewrite app_nil_r. now destruct fd.
  - rewrite IH. cbn. now rewrite <- app_assoc.
Qed.

Lemma handleGenerate_blank (st : State) :
  hasPrompt st = false ->
  handleGenerate st = showError "Please enter a prompt to generate an image." st.
Proof.
  unfold hasPrompt. rewrite str_truthy_length. intros H.
  unfold handleGenerate. unfold mbind at 1, JS_bind at 1. cbn [gets].
  now rewrite H.
Qed.

Lemma handleGenerate_busy (st : State) :
  hasPrompt st = true -> isGenerating st = true ->
  handleGenerate st = (Normal tt, st).
Proof.
  unfold hasPrompt. rewrite str_truthy_length. intros H G.
  unfold handleGenerate. unfold mbind at 1, JS_bind at 1. cbn [gets].
  rewrite H. cbn [negb]. unfold mbind at 1, JS_bind at 1. cbn [gets].
  now rewrite G.
Qed.

Lemma handleGenerate_start (st : State) :
  hasPrompt st = true -> isGenerating st = false ->
  handleGenerate st =
  (Normal tt,
   {| uploadedFiles := uploadedFiles st;
      isGenerating := true;
      promptInput_value := promptInput_value st;
      charCount_textContent := charCount_textContent st;
      aspectRatio_value := aspectRatio_value st;
      generateBtn_disabled := true;
      btnText_hidden := true;
      btnLoader_hidden := false;
      resultSection_hidden := true;
      resultImage_src := resultImage_src st;
      errorMessage_hidden := true;
      errorText_textContent := "";
      previewGrid := previewGrid st;
      readers := readers st;
      fetches := fetches st ++ [formData_of st] |}).
Proof.
  unfold hasPrompt. rewrite str_truthy_length. intros H G.
  unfold handleGenerate. unfold mbind at 1, JS_bind at 1. cbn [gets].
  rewrite H. cbn [negb]. unfold mbind at 1, JS_bind at 1. cbn [gets].
  rewrite G. unfold formData_of.
  pose proof (foldl_append_image (uploadedFiles st)
                (mkFormData (trim (promptInput_value st)) (aspectRatio_value st) []))
    as E.
  cbn [fd_prompt fd_aspect_ratio fd_images app] in E. rewrite <- E.
  reflexivity.
Qed.

(** ** What a statement leaves untouched *)

Lemma keeps_bind {A B C : Type} (f : State -> C) (m : JS A) (k : A -> JS B) :
  keeps f m -> (forall a, keeps f (k a)) -> keeps f (m ≫= k).
Proof.
  intros Hm Hk st. specialize (Hm st). unfold exec, mbind, JS_bind in *.
  destruct (m st) as [[a|e] st']; cbn in *.
  - rewrite <- Hm. apply Hk.
  - exact Hm.
Qed.

Lemma keeps_getProp {C : Type} (f : State -> C) (data : Json) (key : string) :
  keeps f (getProp data key).
Proof. intros st. now destruct data. Qed.

Lemma keeps_try_catch {C : Type} (f : State -> C)
    (body : JS unit) (handler : JsError -> JS unit) :
  keeps f body -> (forall e, keeps f (handler e)) ->
  keeps f (try_catch body handler).
Proof.
  intros Hb Hh st. specialize (Hb st). unfold exec, try_catch in *.
  destruct (body st) as [[[]|e] st1]; cbn in *; [exact Hb|].
  rewrite <- Hb. apply Hh.
Qed.

Lemma handleGenerate_settled_eq (o : FetchOutcome) (st : State) :
  handleGenerate_settled o st =
  (Normal tt,
   let mid := before_finally o st in
   set_generateBtn_disabled (negb (hasPrompt mid) || false)
     (set_btnLoader_hidden true
        (set_btnText_hidden false (set_isGenerating false mid)))).
Proof.
  unfold handleGenerate_settled, try_catch_finally, before_finally, exec.
  assert (N : fst (try_catch (settled_body o) settled_catch st) = Normal tt).
  { unfold try_catch. destruct (settled_body o st) as [[[]|e] st1]; reflexivity. }
  rewrite N. reflexivity.
Qed.

Section Frame.
Context {C : Type} (f : State -> C).
Hypothesis f_src : forall v st, f (set_resultImage_src v st) = f st.
Hypothesis f_result : forall v st, f (set_resultSection_hidden v st) = f st.
Hypothesis f_text : forall v st, f (set_errorText_textContent v st) = f st.
Hypothesis f_error : forall v st, f (set_errorMessage_hidden v st) = f st.

Lemma keeps_showError (message : string) : keeps f (showError message).
Proof. intros st. unfold exec. rewrite showError_eq. cbn. now rewrite f_error, f_text. Qed.

Lemma keeps_settled_body (o : FetchOutcome) : keeps f (settled_body o).
Proof.
  unfold settled_body.
  apply keeps_bind; [destruct o; intros st; reflexivity|].
  intros [ok data].
  apply keeps_bind.
  { destruct (negb ok); [|intros st; reflexivity].
    apply keeps_bind; [apply keeps_getProp|]. intros d st. reflexivity. }
  intros _. apply keeps_bind; [apply keeps_getProp|]. intros success.
  apply keeps_bind.
  { destruct (truthy success); [apply keeps_getProp|intros st; reflexivity]. }
  intros cond. destruct (truthy cond); [|intros st; reflexivity].
  apply keeps_bind; [apply keeps_getProp|]. intros image st.
  unfold exec, mbind, JS_bind, modify. cbn [snd]. now rewrite f_result, f_src.
Qed.

Lemma keeps_before_finally (o : FetchOutcome) (st : State) :
  f (before_finally o st) = f st.
Proof.
  unfold before_finally. apply keeps_try_catch.
  - apply keeps_settled_body.
  - intros e. apply keeps_showError.
Qed.
End Frame.

(** ** One step of the event loop, event by event *)

Lemma step_PromptEdit (value : string) (st : State) :
  step st (PromptEdit value) =
  exec handlePromptInput (set_promptInput_value value st).
Proof. reflexivity. Qed.

Lemma step_PromptItemClick (prompt : string) (st : State) :
  step st (PromptItemClick prompt) =
  exec handlePromptInput (set_promptInput_value prompt st).
Proof. reflexivity. Qed.

Lemma step_RemoveClick (k : nat) (st : State) :
  step st (RemoveClick k) =
  match previewGrid st !! k with
  | Some item => exec (removeFile (item_index item)) st
  | None => st
  end.
Proof.
  unfold step, exec, dispatch, mbind, JS_bind, gets.
  destruct (previewGrid st !! k); reflexivity.
Qed.

Lemma step_ReaderLoad (k : nat) (st : State) :
  step st (ReaderLoad k) =
  match readers st !! k with
  | Some r =>
      set_previewGrid (previewGrid st ++ [item_of r])
        (set_readers (delete k (readers st)) st)
  | None => st
  end.
Proof.
  unfold step, exec, dispatch, mbind, JS_bind, gets.
  destruct (readers st !! k); reflexivity.
Qed.

Lemma step_FetchSettled (k : nat) (o : FetchOutcome) (st : State) :
  step st (FetchSettled k o) =
  match fetches st !! k with
  | Some _ =>
      exec (handleGenerate_settled o) (set_fetches (delete k (fetches st)) st)
  | None => st
  end.
Proof.
  unfold step, exec, dispatch, mbind, JS_bind, gets.
  destruct (fetches st !! k); reflexivity.
Qed.

(** [checkApiHealth] shows one of its two messages or does nothing. *)
Lemma checkApiHealth_settled_cases (o : HealthOutcome) (st : State) :
  checkApiHealth_settled o st = (Normal tt, st) \/
  exists message, checkApiHealth_settled o st = showError message st.
Proof.
  destruct o as [e|data]; [right; eexists; reflexivity|].
  unfold checkApiHealth_settled, try_catch, await_health, getProp,
    mbind, JS_bind, mret, JS_ret, throw, skip.
  destruct data as [| | | | |props]; cbn;
    try (right; eexists; reflexivity).
  destruct (truthy (lookup_prop "api_configured" props)); cbn;
    [left; reflexivity | right; eexists; reflexivity].
Qed.

(** The three cases of a click on the trigger control. *)
Lemma step_GenerateClick (st : State) :
  step st GenerateClick =
  if hasPrompt st then
    if isGenerating st then st
    else snd (handleGenerate st)
  else exec (showError "Please enter a prompt to generate an image.") st.
Proof.
  unfold step, exec, dispatch.
  destruct (hasPrompt st) eqn:P; [|now rewrite handleGenerate_blank].
  destruct (isGenerating st) eqn:G; [now rewrite handleGenerate_busy | reflexivity].
Qed.

(** ** The trigger control follows the prompt and the busy flag *)

Lemma fetches_settled (o : FetchOutcome) (st : State) :
  fetches (exec (handleGenerate_settled o) st) = fetches st.
Proof.
  unfold exec. rewrite handleGenerate_settled_eq. cbn.
  now apply (keeps_before_finally fetches).
Qed.

Lemma isGenerating_settled (o : FetchOutcome) (st : State) :
  isGenerating (exec (handleGenerate_settled o) st) = false.
Proof. unfold exec. now rewrite handleGenerate_settled_eq. Qed.

Lemma button_sync_initial : button_sync initial.
Proof. reflexivity. Qed.

Lemma button_sync_step (st : State) (ev : Event) :
  button_sync st -> button_sync (step st ev).
Proof.
  intros I. destruct ev as [files|files|v|v|v| | |k|k|k o|o].
  - unfold step, exec, dispatch, handleFileSelect. now rewrite addFiles_eq.
  - unfold step, exec, dispatch, handleDrop. now rewrite addFiles_eq.
  - rewrite step_PromptEdit. reflexivity.
  - rewrite step_PromptItemClick. reflexivity.
  - exact I.
  - rewrite step_GenerateClick.
    destruct (hasPrompt st) eqn:P; [|exact I].
    destruct (isGenerating st) eqn:G; [exact I|].
    rewrite handleGenerate_start by assumption.
    unfold button_sync. cbn [snd generateBtn_disabled isGenerating].
    symmetry. apply orb_true_r.
  - unfold step, exec, dispatch. rewrite handleNewGeneration_eq. reflexivity.
  - rewrite step_RemoveClick. destruct (previewGrid st !! k); [|exact I].
    unfold exec. now rewrite removeFile_eq.
  - rewrite step_ReaderLoad. destruct (readers st !! k); exact I.
  - rewrite step_FetchSettled. destruct (fetches st !! k); [|exact I].
    unfold exec. rewrite handleGenerate_settled_eq. reflexivity.
  - unfold step, exec.
    destruct (checkApiHealth_settled_cases o st) as [E|[m E]];
      cbn [dispatch]; rewrite E; exact I.
Qed.

Lemma run_snoc (evs : list Event) (ev : Event) (st : State) :
  run (evs ++ [ev]) st = step (run evs st) ev.
Proof. unfold run. now rewrite foldl_app. Qed.

(** Induction over the states the page can reach. *)
Lemma reachable_ind (P : State -> Prop) :
  P initial ->
  (forall st ev, reachable st -> P st -> P (step st ev)) ->
  forall st, reachable st -> P st.
Proof.
  intros H0 HS st [evs ->].
  induction evs as [|ev evs IH] using rev_ind; [exact H0|].
  rewrite run_snoc. apply HS; [now exists evs | exact IH].
Qed.

Lemma button_sync_reachable (st : State) : reachable st -> button_sync st.
Proof.
  apply reachable_ind; [exact button_sync_initial|].
  intros s ev _. apply button_sync_step.
Qed.

Lemma busy_has_request_step (st : State) (ev : Event) :
  busy_has_request st -> busy_has_request (step st ev).
Proof.
  intros I. destruct ev as [files|files|v|v|v| | |k|k|k o|o].
  - unfold step, exec, dispatch, handleFileSelect. now rewrite addFiles_eq.
  - unfold step, exec, dispatch, handleDrop. now rewrite addFiles_eq.
  - exact I.
  - exact I.
  - exact I.
  - rewrite step_GenerateClick.
    destruct (hasPrompt st) eqn:P; [|exact I].
    destruct (isGenerating st) eqn:G; [exact I|].
    rewrite handleGenerate_start by assumption.
    intros _. cbn [snd fetches]. intros E. now apply app_eq_nil in E as [_ E].
  - unfold step, exec, dispatch. rewrite handleNewGeneration_eq.
    intros E. discriminate E.
  - rewrite step_RemoveClick. destruct (previewGrid st !! k); [|exact I].
    unfold exec. now rewrite removeFile_eq.
  - rewrite step_ReaderLoad. destruct (readers st !! k); exact I.
  - rewrite step_FetchSettled. destruct (fetches st !! k); [|exact I].
    intros E. rewrite isGenerating_settled in E. discriminate E.
  - unfold step, exec.
    destruct (checkApiHealth_settled_cases o st) as [E|[m E]];
      cbn [dispatch]; rewrite E; exact I.
Qed.

Lemma busy_has_request_reachable (st : State) : reachable st -> busy_has_request st.
Proof.
  apply reachable_ind; [intros E; discriminate E|].
  intros s ev _. apply busy_has_request_step.
Qed.

(** The trigger control and the flag.  In every state the page can reach,
    the trigger control is enabled exactly when the trimmed prompt is
    non-empty and the flag [isGenerating], which [updateGenerateButton]
    consults, is not set.  The flag is never set without a pending request,
    so a non-empty prompt with no request pending always finds the control
    enabled. *)
Theorem trigger_enabled_iff (st : State) :
  reachable st ->
  (enabled st = true <->
   trim (promptInput_value st) <> "" /\ isGenerating st = false) /\
  (trim (promptInput_value st) <> "" -> fetches st = [] -> enabled st = true).
Proof.
  intros R. pose proof (button_sync_reachable st R) as I.
  pose proof (busy_has_request_reachable st R) as B.
  unfold enabled, busy_has_request in *. rewrite I, <- hasPrompt_nonempty.
  destruct (hasPrompt st), (isGenerating st); cbn; intuition congruence.
Qed.

Lemma trigger_enabled_iff_witness :
  let st := run [PromptEdit "a red fox"; FileSelect []] initial in
  reachable st /\
  (enabled st = true <->
   trim (promptInput_value st) <> "" /\ isGenerating st = false).
Proof.
  assert (R : reachable (run [PromptEdit "a red fox"; FileSelect []] initial))
    by (eexists; reflexivity).
  split; [exact R | exact (proj1 (trigger_enabled_iff _ R))].
Defined.

(** ** The attachment collection stays within its capacity *)

Lemma slice0_nonneg {A : Type} (l : list A) (n : nat) :
  slice0 l (Z.of_nat n) = take n l.
Proof.
  unfold slice0.
  destruct (Z.ltb_spec (Z.of_nat n) 0) as [H|_]; [lia|].
  destruct (Nat.le_gt_cases (length l) n) as [H|H].
  - rewrite Z.min_r by lia. rewrite Nat2Z.id. now rewrite !take_ge by lia.
  - rewrite Z.min_l by lia. now rewrite Nat2Z.id.
Qed.

Lemma filesToAdd_take (files : list File) (st : State) :
  within_capacity st ->
  filesToAdd files st = take (MAX_FILES - length (uploadedFiles st)) files.
Proof.
  unfold within_capacity, filesToAdd, remainingSlots. intros H.
  rewrite <- Nat2Z.inj_sub by exact H. apply slice0_nonneg.
Qed.

Lemma addFiles_within_capacity (files : list File) (st : State) :
  within_capacity st -> within_capacity (exec (addFiles files) st).
Proof.
  intros H. unfold exec. rewrite addFiles_eq. unfold within_capacity in *.
  cbn [snd uploadedFiles]. rewrite filesToAdd_take by exact H.
  rewrite length_app, length_take. lia.
Qed.

Lemma delete_length_le {A : Type} (l : list A) (i : nat) :
  length (delete i l) <= length l.
Proof.
  destruct (l !! i) eqn:E.
  - rewrite length_delete by (now exists a). lia.
  - rewrite delete_take_drop, length_app, length_take, length_drop.
    apply lookup_ge_None in E. lia.
Qed.

Lemma uploadedFiles_settled (o : FetchOutcome) (st : State) :
  uploadedFiles (exec (handleGenerate_settled o) st) = uploadedFiles st.
Proof.
  unfold exec. rewrite handleGenerate_settled_eq. cbn.
  now apply (keeps_before_finally uploadedFiles).
Qed.

Lemma within_capacity_step (st : State) (ev : Event) :
  within_capacity st -> within_capacity (step st ev).
Proof.
  intros I. destruct ev as [files|files|v|v|v| | |k|k|k o|o].
  - now apply addFiles_within_capacity.
  - now apply addFiles_within_capacity.
  - exact I.
  - exact I.
  - exact I.
  - rewrite step_GenerateClick.
    destruct (hasPrompt st) eqn:P; [|exact I].
    destruct (isGenerating st) eqn:G; [exact I|].
    rewrite handleGenerate_start by assumption. exact I.
  - unfold within_capacity, step, exec, dispatch.
    rewrite handleNewGeneration_eq. cbn. lia.
  - rewrite step_RemoveClick. destruct (previewGrid st !! k); [|exact I].
    unfold within_capacity, exec in *. rewrite removeFile_eq. cbn [snd uploadedFiles].
    pose proof (delete_length_le (uploadedFiles st) (item_index p)). lia.
  - rewrite step_ReaderLoad. destruct (readers st !! k); exact I.
  - rewrite step_FetchSettled. destruct (fetches st !! k); [|exact I].
    unfold within_capacity. now rewrite uploadedFiles_settled.
  - unfold step, exec.
    destruct (checkApiHealth_settled_cases o st) as [E|[m E]];
      cbn [dispatch]; rewrite E; exact I.
Qed.

Lemma within_capacity_reachable (st : State) : reachable st -> within_capacity st.
Proof.
  apply reachable_ind; [unfold within_capacity; cbn; lia|].
  intros s ev _. apply within_capacity_step.
Qed.

(** C3. Whatever the page has done before (any number of [addFiles]
    calls among the other events), the collection holds at most 14 files;
    a further [addFiles] returns normally, appends the first
    [14 - count] files of its batch and drops the rest, and at every point
    of its loop the collection holds at most 14 files. *)
Theorem attachments_never_exceed_capacity (st : State) :
  reachable st ->
  length (uploadedFiles st) <= 14 /\
  forall files : list File,
    fst (addFiles files st) = Normal tt /\
    uploadedFiles (exec (addFiles files) st)
      = uploadedFiles st ++ take (14 - length (uploadedFiles st)) files /\
    length (uploadedFiles (exec (addFiles files) st)) <= 14 /\
    forall pushed rest : list File,
      filesToAdd files st = pushed ++ rest ->
      length (uploadedFiles
                (exec (forEach pushed addFiles_each)
                   (exec (addFiles_check files) st))) <= 14.
Proof.
  intros R. pose proof (within_capacity_reachable st R) as I.
  split; [exact I|]. intros files.
  pose proof (addFiles_within_capacity files st I) as I'.
  split; [now rewrite addFiles_eq|].
  split; [unfold exec; rewrite addFiles_eq; cbn [snd uploadedFiles];
          now rewrite filesToAdd_take|].
  split; [exact I'|].
  intros pushed rest E.
  unfold exec, forEach. rewrite addFiles_loop_eq, addFiles_check_eq.
  cbn [snd]. unfold within_capacity, exec in I'. rewrite addFiles_eq in I'.
  cbn [snd uploadedFiles] in I'. rewrite E, !length_app in I'.
  destruct (_ <? _)%Z; cbn; rewrite length_app; unfold MAX_FILES in I'; lia.
Qed.

Lemma attachments_never_exceed_capacity_witness :
  let st := run [FileSelect (replicate 9 (mkFile "a.png" "image/png" "data:a"));
                 FileSelect (replicate 9 (mkFile "b.png" "image/png" "data:b"))]
              initial in
  reachable st /\ length (uploadedFiles st) <= 14.
Proof.
  assert (R : reachable
                (run [FileSelect (replicate 9 (mkFile "a.png" "image/png" "data:a"));
                      FileSelect (replicate 9 (mkFile "b.png" "image/png" "data:b"))]
                   initial))
    by (eexists; reflexivity).
  split; [exact R | exact (proj1 (attachments_never_exceed_capacity _ R))].
Defined.

(** ** The busy flag and the pending requests *)

Lemma guard_sync_step (st : State) (ev : Event) :
  ev <> NewGenerationClick -> guard_sync st -> guard_sync (step st ev).
Proof.
  intros N I. destruct ev as [files|files|v|v|v| | |k|k|k o|o].
  - unfold step, exec, dispatch, handleFileSelect. now rewrite addFiles_eq.
  - unfold step, exec, dispatch, handleDrop. now rewrite addFiles_eq.
  - exact I.
  - exact I.
  - exact I.
  - rewrite step_GenerateClick.
    destruct (hasPrompt st) eqn:P; [|exact I].
    destruct (isGenerating st) eqn:G; [exact I|].
    rewrite handleGenerate_start by assumption.
    unfold guard_sync in *. rewrite G in I. cbn. rewrite length_app. cbn. lia.
  - congruence.
  - rewrite step_RemoveClick. destruct (previewGrid st !! k); [|exact I].
    unfold exec. now rewrite removeFile_eq.
  - rewrite step_ReaderLoad. destruct (readers st !! k); exact I.
  - rewrite step_FetchSettled. destruct (fetches st !! k) eqn:E; [|exact I].
    unfold guard_sync in *.
    rewrite fetches_settled, isGenerating_settled. cbn [fetches set_fetches].
    rewrite length_delete by (now exists f).
    apply lookup_lt_Some in E. destruct (isGenerating st); lia.
  - unfold step, exec.
    destruct (checkApiHealth_settled_cases o st) as [E|[m E]];
      cbn [dispatch]; rewrite E; exact I.
Qed.

(** As long as the reset control is not used, the guard of
    [handleGenerate] keeps the requests to one at a time. *)
Lemma one_request_without_reset (evs : list Event) :
  Forall (fun ev => ev <> NewGenerationClick) evs ->
  guard_sync (run evs initial) /\ length (fetches (run evs initial)) <= 1.
Proof.
  intros H.
  assert (G : guard_sync (run evs initial)).
  { induction evs as [|ev evs IH] using rev_ind; [reflexivity|].
    apply Forall_app in H as [H1 H2]. rewrite run_snoc.
    apply guard_sync_step; [now inversion H2 | now apply IH]. }
  split; [exact G|]. unfold guard_sync in G. rewrite G.
  destruct (isGenerating _); lia.
Qed.

(** Without a reset, the trigger control is enabled exactly when the
    trimmed prompt is non-empty and no request is pending. *)
Lemma trigger_follows_requests_without_reset (evs : list Event) :
  Forall (fun ev => ev <> NewGenerationClick) evs ->
  let st := run evs initial in
  enabled st = true <->
  trim (promptInput_value st) <> "" /\ fetches st = [].
Proof.
  intros H. cbv zeta.
  destruct (one_request_without_reset evs H) as [G _].
  assert (R : reachable (run evs initial)) by now exists evs.
  pose proof (button_sync_reachable _ R) as I.
  unfold guard_sync in G. unfold enabled. rewrite I, <- hasPrompt_nonempty.
  destruct (hasPrompt (run evs initial)), (isGenerating (run evs initial)),
    (fetches (run evs initial)); cbn in *; intuition congruence.
Qed.

(** C1.  After a reset during a request the flag is clear while the
    request is still pending: the next edit of the prompt enables the
    trigger control although a generation request is in flight. *)
Theorem reset_in_flight_enables_trigger :
  let evs := [PromptEdit "a"; GenerateClick; NewGenerationClick; PromptEdit "b"] in
  let st := run evs initial in
  reachable st /\
  enabled st = true /\
  trim (promptInput_value st) <> "" /\
  isGenerating st = false /\
  fetches st = [mkFormData "a" "1:1" []].
Proof.
  cbv zeta. split; [eexists; reflexivity|].
  repeat split. discriminate.
Qed.

(** C2. A reset while a request is pending clears the flag, so the next
    click on the (enabled) trigger control sends a second request while
    the first is still pending. *)
Theorem reset_in_flight_allows_second_request :
  let evs := [PromptEdit "a"; GenerateClick; NewGenerationClick;
              PromptEdit "b"; GenerateClick] in
  length (fetches (run (take 2 evs) initial)) = 1 /\
  length (fetches (run (take 3 evs) initial)) = 1 /\
  isGenerating (run (take 3 evs) initial) = false /\
  enabled (run (take 4 evs) initial) = true /\
  fetches (run evs initial)
    = [mkFormData "a" "1:1" []; mkFormData "b" "1:1" []].
Proof. cbv zeta. repeat split. Qed.

(** ** A click on the trigger control while the flag is set *)

(** C4, as amended.  While the flag [isGenerating] is set, [handleGenerate]
    sends no request; with a non-empty trimmed prompt it changes nothing at
    all, with an empty one it displays the validation message and changes
    nothing else. *)
Theorem generate_while_in_flight (st : State) :
  isGenerating st = true ->
  fetches (exec handleGenerate st) = fetches st /\
  (trim (promptInput_value st) <> "" -> handleGenerate st = (Normal tt, st)) /\
  (trim (promptInput_value st) = "" ->
   handleGenerate st =
   (Normal tt,
    set_errorMessage_hidden false
      (set_errorText_textContent "Please enter a prompt to generate an image." st))).
Proof.
  intros G.
  destruct (hasPrompt st) eqn:P.
  - pose proof (handleGenerate_busy st P G) as E.
    apply hasPrompt_nonempty in P.
    unfold exec. rewrite E. split; [reflexivity|]. split; [reflexivity|congruence].
  - pose proof (handleGenerate_blank st P) as E.
    assert (B : trim (promptInput_value st) = "").
    { destruct (trim (promptInput_value st)) eqn:T; [reflexivity|].
      unfold hasPrompt in P. rewrite T in P. discriminate. }
    unfold exec. rewrite E. split; [reflexivity|]. split; [congruence|].
    intros _. apply showError_eq.
Qed.

Lemma generate_while_in_flight_witness :
  let st := run [PromptEdit "a"; GenerateClick] initial in
  isGenerating st = true /\
  fetches (exec handleGenerate st) = fetches st /\
  handleGenerate st = (Normal tt, st).
Proof.
  assert (G : isGenerating (run [PromptEdit "a"; GenerateClick] initial) = true)
    by reflexivity.
  destruct (generate_while_in_flight _ G) as (F & K & _).
  split; [exact G|]. split; [exact F|].
  apply K. vm_compute. discriminate.
Defined.

(** C4 as stated fails: with the prompt emptied during the request, a call
    of [handleGenerate] puts the validation message on display. *)
Lemma generate_while_in_flight_counterexample :
  let st := run [PromptEdit "a"; GenerateClick; PromptEdit ""] initial in
  isGenerating st = true /\
  length (fetches st) = 1 /\
  errorMessage_hidden st = true /\
  errorMessage_hidden (exec handleGenerate st) = false /\
  errorText_textContent (exec handleGenerate st)
    = "Please enter a prompt to generate an image." /\
  exec handleGenerate st <> st.
Proof. cbv zeta. repeat split. discriminate. Qed.

(** ** What a settled request leaves on the page *)

Lemma getProp_eq (data : Json) (key : string) (st : State) :
  data <> JNull -> getProp data key st = (Normal (body_prop data key), st).
Proof. destruct data; intros H; [congruence| reflexivity ..]. Qed.

Lemma settled_body_Responded (ok : bool) (data : Json) (st : State) :
  data <> JNull ->
  settled_body (Responded ok data) st =
  if negb ok then
    (Throw (Error_of (val_or (body_prop data "detail")
                        (Some (JStr "Failed to generate image")))), st)
  else if truthy (body_prop data "success") && truthy (body_prop data "image") then
    (Normal tt,
     set_resultSection_hidden false
       (set_resultImage_src (to_string (body_prop data "image")) st))
  else (Throw (Error "No image was generated"), st).
Proof.
  intros H. unfold settled_body, await_response.
  unfold mbind at 1, JS_bind at 1, mret at 1, JS_ret at 1.
  destruct ok; cbn [negb].
  - unfold mbind at 1, JS_bind at 1, skip, mret at 1, JS_ret at 1.
    rewrite (bind_Normal _ _ _ _ _ (getProp_eq data "success" st H)).
    destruct (truthy (body_prop data "success")) eqn:S; cbn [andb].
    + rewrite (bind_Normal _ _ _ _ _ (getProp_eq data "image" st H)).
      destruct (truthy (body_prop data "image")) eqn:I.
      * rewrite (bind_Normal _ _ _ _ _ (getProp_eq data "image" st H)). reflexivity.
      * reflexivity.
    + unfold mbind at 1, JS_bind at 1, mret at 1, JS_ret at 1. rewrite S. reflexivity.
  - unfold mbind at 1, JS_bind at 1.
    rewrite (bind_Normal _ _ _ _ _ (getProp_eq data "detail" st H)). reflexivity.
Qed.

Lemma settled_body_failure (o : FetchOutcome) (st : State) :
  succeeds o = false -> exists e, settled_body o st = (Throw e, st).
Proof.
  intros F. destruct o as [e|ok e|ok data]; [now exists e | now exists e |].
  destruct data as [|b|z|s|xs|props] eqn:D;
    [destruct ok; eexists; reflexivity | ..];
    (rewrite settled_body_Responded by discriminate;
     destruct ok; cbn [negb]; [cbn [succeeds] in F; rewrite F|]; eexists; reflexivity).
Qed.

Lemma before_finally_failure (o : FetchOutcome) (st : State) (e : JsError) :
  settled_body o st = (Throw e, st) ->
  before_finally o st =
  set_errorMessage_hidden false
    (set_errorText_textContent
       (str_or (err_message e) "An error occurred while generating the image.") st).
Proof. intros E. unfold before_finally, exec, try_catch. now rewrite E. Qed.




(** ** The busy flag after a request *)

Lemma dispatch_FetchSettled (k : nat) (o : FetchOutcome) (st : State) :
  dispatch (FetchSettled k o) st =
  match fetches st !! k with
  | Some _ => handleGenerate_settled o (set_fetches (delete k (fetches st)) st)
  | None => (Normal tt, st)
  end.
Proof.
  unfold dispatch, mbind, JS_bind, gets.
  destruct (fetches st !! k); reflexivity.
Qed.

Lemma promptInput_value_settled (o : FetchOutcome) (st : State) :
  promptInput_value (exec (handleGenerate_settled o) st) = promptInput_value st.
Proof.
  unfold exec. rewrite handleGenerate_settled_eq. cbn.
  now apply (keeps_before_finally promptInput_value).
Qed.

Lemma enabled_settled (o : FetchOutcome) (st : State) :
  enabled (exec (handleGenerate_settled o) st) = hasPrompt st.
Proof.
  unfold exec. rewrite handleGenerate_settled_eq. cbv zeta.
  unfold enabled. cbn [snd generateBtn_disabled set_generateBtn_disabled].
  rewrite orb_false_r, negb_involutive. unfold hasPrompt.
  now rewrite (keeps_before_finally promptInput_value).
Qed.

(** C6.  A call of [handleGenerate] that passes its checks sets the flag
    and sends one request; when a pending request settles, whatever the
    outcome (a result, a failure reported by the backend, a network
    failure, a body that does not parse) and whatever happened on the page
    in between, the handler completes normally with the flag cleared, and
    the trigger control is then enabled exactly when the trimmed prompt is
    non-empty. *)
Theorem busy_flag_cleared_on_every_path :
  (forall st : State,
     trim (promptInput_value st) <> "" -> isGenerating st = false ->
     let st1 := step st GenerateClick in
     isGenerating st1 = true /\
     enabled st1 = false /\
     fetches st1 = fetches st ++ [formData_of st]) /\
  (forall (st : State) (k : nat) (o : FetchOutcome),
     is_Some (fetches st !! k) ->
     let st' := step st (FetchSettled k o) in
     fst (dispatch (FetchSettled k o) st) = Normal tt /\
     isGenerating st' = false /\
     fetches st' = delete k (fetches st) /\
     promptInput_value st' = promptInput_value st /\
     (enabled st' = true <-> trim (promptInput_value st') <> "")).
Proof.
  split.
  - intros st P G. apply hasPrompt_nonempty in P. cbv zeta.
    rewrite step_GenerateClick, P, G.
    rewrite handleGenerate_start by assumption. now cbn.
  - intros st k o [fd E]. cbv zeta.
    rewrite step_FetchSettled, dispatch_FetchSettled, E.
    split; [now rewrite handleGenerate_settled_eq|].
    split; [apply isGenerating_settled|].
    split; [now rewrite fetches_settled|].
    split; [now rewrite promptInput_value_settled|].
    rewrite enabled_settled, promptInput_value_settled.
    apply hasPrompt_nonempty.
Qed.

Lemma busy_flag_cleared_on_every_path_witness :
  let st := run [PromptEdit "a lighthouse"; GenerateClick] initial in
  let st' := step st (FetchSettled 0 (FetchRejected (mkError "TypeError" "Failed to fetch"))) in
  is_Some (fetches st !! 0) /\
  isGenerating st' = false /\
  (enabled st' = true <-> trim (promptInput_value st') <> "").
Proof.
  assert (H : is_Some (fetches (run [PromptEdit "a lighthouse"; GenerateClick] initial) !! 0))
    by (exists (mkFormData "a lighthouse" "1:1" []); reflexivity).
  destruct (proj2 busy_flag_cleared_on_every_path _ 0
              (FetchRejected (mkError "TypeError" "Failed to fetch")) H)
    as (_ & G & _ & _ & B).
  split; [exact H|]. split; [exact G | exact B].
Defined.

(** ** Removing an attachment *)

(** C7.  [removeFile(i)] with [0 <= i < count] returns normally and leaves
    the other attachments in their order: position [j] holds what it held
    before for [j < i] and what position [j + 1] held otherwise.  The grid
    is emptied and one preview is started per remaining attachment, in
    order, with the indices [0 .. count - 2], each once. *)
Theorem remove_reindexes_contiguously (st : State) (i : nat) :
  i < length (uploadedFiles st) ->
  let fs := uploadedFiles st in
  let st' := exec (removeFile i) st in
  fst (removeFile i st) = Normal tt /\
  uploadedFiles st' = take i fs ++ drop (S i) fs /\
  length (uploadedFiles st') = length fs - 1 /\
  (forall j, uploadedFiles st' !! j = if decide (j < i) then fs !! j else fs !! S j) /\
  previewGrid st' = [] /\
  exists started : list Reader,
    readers st' = readers st ++ started /\
    map reader_file started = uploadedFiles st' /\
    map reader_index started = seq 0 (length fs - 1) /\
    NoDup (map reader_index started).
Proof.
  intros H. cbv zeta. unfold exec. rewrite removeFile_eq.
  cbn [fst snd uploadedFiles previewGrid readers].
  assert (L : length (delete i (uploadedFiles st)) = length (uploadedFiles st) - 1).
  { apply length_delete. now apply lookup_lt_is_Some. }
  split; [reflexivity|].
  split; [apply delete_take_drop|].
  split; [exact L|].
  split.
  { intros j. destruct (decide (j < i)) as [Hj|Hj].
    - now apply list_lookup_delete_lt.
    - apply list_lookup_delete_ge. lia. }
  split; [reflexivity|].
  exists (readers_for 0 (delete i (uploadedFiles st))).
  split; [reflexivity|].
  split; [apply readers_for_files|].
  rewrite readers_for_index, L.
  split; [reflexivity | apply NoDup_seq].
Qed.

Lemma remove_reindexes_contiguously_witness :
  let a := mkFile "a.png" "image/png" "data:a" in
  let b := mkFile "b.png" "image/png" "data:b" in
  let c := mkFile "c.png" "image/png" "data:c" in
  let st := run [FileSelect [a; b; c]; ReaderLoad 0; ReaderLoad 0; ReaderLoad 0]
              initial in
  1 < length (uploadedFiles st) /\
  uploadedFiles (exec (removeFile 1) st) = [a; c] /\
  map reader_index (readers (exec (removeFile 1) st)) = [0; 1].
Proof.
  cbv zeta.
  set (st := run [FileSelect [mkFile "a.png" "image/png" "data:a";
                              mkFile "b.png" "image/png" "data:b";
                              mkFile "c.png" "image/png" "data:c"];
                  ReaderLoad 0; ReaderLoad 0; ReaderLoad 0] initial).
  assert (H : 1 < length (uploadedFiles st)) by (vm_compute; lia).
  destruct (remove_reindexes_contiguously st 1 H) as (_ & E & _ & _ & _ & _).
  split; [exact H|]. split; [exact E | reflexivity].
Defined.

(** ** Adding more files than fit *)

(** C8.  Fifteen image files added to the empty collection: the first
    fourteen are kept and the capacity notice is put on display by the
    [if] of [addFiles], but the [hideError()] that ends [addFiles] takes it
    down again before the call returns. *)
Theorem fifteen_files_notice_not_left_visible :
  let files := map (fun n => mkFile ("img" ++ pretty n) "image/png" ("data:" ++ pretty n))
                 (seq 0 15) in
  let noticed := exec (addFiles_check files) initial in
  let st' := exec (addFiles files) initial in
  uploadedFiles st' = take 14 files /\
  length (uploadedFiles st') = 14 /\
  errorMessage_hidden noticed = false /\
  errorText_textContent noticed
    = "Maximum 14 images allowed. Only 14 more can be added." /\
  errorMessage_hidden st' = true /\
  errorText_textContent st' = "".
Proof. vm_compute. repeat split. Qed.

(** C10.  Every call of [addFiles] returns normally with the error surface
    hidden and its text empty, whatever the batch (empty, or larger than
    the room left) and whatever was displayed before. *)
Theorem addFiles_leaves_error_hidden (files : list File) (st : State) :
  fst (addFiles files st) = Normal tt /\
  errorMessage_hidden (exec (addFiles files) st) = true /\
  errorText_textContent (exec (addFiles files) st) = "".
Proof. unfold exec. rewrite addFiles_eq. repeat split. Qed.

(** ** The order of the rendered previews *)

Lemma readers_for_app (base : nat) (l1 l2 : list File) :
  readers_for base (l1 ++ l2)
  = readers_for base l1 ++ readers_for (base + length l1) l2.
Proof.
  revert base. induction l1 as [|f l1 IH]; intros base.
  - cbn. now rewrite Nat.add_0_r.
  - cbn [app length]. rewrite !readers_for_cons, IH. cbn [app].
    now replace (S base + length l1) with (base + S (length l1)) by lia.
Qed.

Lemma step_ReaderLoad_Some (k : nat) (r : Reader) (st : State) :
  readers st !! k = Some r ->
  step st (ReaderLoad k)
  = set_previewGrid (previewGrid st ++ [item_of r])
      (set_readers (delete k (readers st)) st).
Proof. intros E. now rewrite step_ReaderLoad, E. Qed.

(** The pending readers completing in the order in which they were
    started. *)
Lemma loads_in_start_order (rs : list Reader) : forall st : State,
  readers st = rs ->
  run (replicate (length rs) (ReaderLoad 0)) st
  = set_previewGrid (previewGrid st ++ map item_of rs) (set_readers [] st).
Proof.
  induction rs as [|r rs IH]; intros st E.
  - cbn. destruct st. cbn in *. subst. now rewrite app_nil_r.
  - cbn [length replicate run foldl].
    rewrite (step_ReaderLoad_Some 0 r) by now rewrite E.
    fold (run (replicate (length rs) (ReaderLoad 0))).
    unfold run in IH. rewrite IH by now rewrite E.
    destruct st. cbn. now rewrite <- app_assoc.
Qed.

Lemma rendered_in_order_observed (st : State) :
  rendered_in_order st ->
  map item_src (previewGrid st) = map file_dataURL (uploadedFiles st) /\
  map item_index (previewGrid st) = seq 0 (length (uploadedFiles st)).
Proof.
  unfold rendered_in_order. intros ->. rewrite !map_map. cbn.
  rewrite <- (map_map reader_file file_dataURL), readers_for_files.
  split; [reflexivity|]. apply (readers_for_index 0).
Qed.

(** C9, as amended.  A preview is appended to the grid when its decode
    completes, carrying the index given to it when the decode was started:
    the grid lists the items in the order of completion.  From a page
    whose grid shows the collection in order and with no decode pending,
    adding files and letting their decodes complete in the order in which
    they were started gives a grid that again shows the collection in
    order. *)
Theorem previews_follow_completion_order :
  (forall (st : State) (k : nat) (r : Reader),
     readers st !! k = Some r ->
     let st' := step st (ReaderLoad k) in
     previewGrid st' = previewGrid st ++ [item_of r] /\
     readers st' = delete k (readers st) /\
     uploadedFiles st' = uploadedFiles st) /\
  (forall (st : State) (files : list File),
     readers st = [] -> rendered_in_order st ->
     let st1 := exec (addFiles files) st in
     let st2 := run (replicate (length (readers st1)) (ReaderLoad 0)) st1 in
     readers st2 = [] /\
     uploadedFiles st2 = uploadedFiles st1 /\
     rendered_in_order st2 /\
     map item_src (previewGrid st2) = map file_dataURL (uploadedFiles st2) /\
     map item_index (previewGrid st2) = seq 0 (length (uploadedFiles st2))).
Proof.
  split.
  - intros st k r E. cbv zeta. rewrite (step_ReaderLoad_Some k r st E).
    now destruct st.
  - intros st files E O. cbv zeta.
    rewrite (loads_in_start_order _ _ eq_refl).
    assert (O' : rendered_in_order
                   (set_previewGrid
                      (previewGrid (exec (addFiles files) st)
                       ++ map item_of (readers (exec (addFiles files) st)))
                      (set_readers [] (exec (addFiles files) st)))).
    { unfold rendered_in_order, exec in *. rewrite addFiles_eq.
      cbn [snd set_previewGrid set_readers previewGrid uploadedFiles readers].
      rewrite E, O. cbn [app]. rewrite readers_for_app, map_app. reflexivity. }
    split; [reflexivity|]. split; [reflexivity|]. split; [exact O'|].
    now apply rendered_in_order_observed.
Qed.

Lemma previews_follow_completion_order_witness :
  let a := mkFile "a.png" "image/png" "data:a" in
  let b := mkFile "b.png" "image/png" "data:b" in
  let st1 := exec (addFiles [a; b]) initial in
  let st2 := run (replicate (length (readers st1)) (ReaderLoad 0)) st1 in
  readers initial = [] /\ rendered_in_order initial /\
  map item_src (previewGrid st2) = map file_dataURL (uploadedFiles st2).
Proof.
  cbv zeta.
  assert (E : readers initial = []) by reflexivity.
  assert (O : rendered_in_order initial) by reflexivity.
  destruct (proj2 previews_follow_completion_order initial
              [mkFile "a.png" "image/png" "data:a";
               mkFile "b.png" "image/png" "data:b"] E O)
    as (_ & _ & _ & S & _).
  split; [exact E|]. split; [exact O | exact S].
Defined.

(** C9 as stated fails: of two files added together, the second is
    decoded first and is rendered first. *)
Lemma previews_follow_completion_order_counterexample :
  let a := mkFile "a.png" "image/png" "data:a" in
  let b := mkFile "b.png" "image/png" "data:b" in
  let st := run [FileSelect [a; b]; ReaderLoad 1; ReaderLoad 0] initial in
  uploadedFiles st = [a; b] /\
  readers st = [] /\
  map item_src (previewGrid st) = ["data:b"; "data:a"] /\
  map item_index (previewGrid st) = [1; 0] /\
  map item_src (previewGrid st) <> map file_dataURL (uploadedFiles st).
Proof. cbv zeta. repeat split. discriminate. Qed.

(** A decode still pending when an attachment is removed is not cancelled
    by the rebuild of the grid: its item is appended when it completes. *)
Example pending_decode_survives_rebuild :
  let a := mkFile "a.png" "image/png" "data:a" in
  let b := mkFile "b.png" "image/png" "data:b" in
  let st := run [FileSelect [a; b]; ReaderLoad 0; RemoveClick 0;
                 ReaderLoad 0; ReaderLoad 0] initial in
  uploadedFiles st = [b] /\
  map item_src (previewGrid st) = ["data:b"; "data:b"] /\
  map item_index (previewGrid st) = [1; 0].
Proof. cbv zeta. repeat split. Qed.

(** ** The earlier revision *)

(** Without the flag, an edit of the prompt during a request enables the
    trigger control again. *)
Example earlier_revision_enables_while_loading :
  let st := exec (Earlier.setLoading true) (set_promptInput_value "a fox" initial) in
  let st' := exec Earlier.updateGenerateButton st in
  generateBtn_disabled st = true /\
  btnLoader_hidden st' = false /\
  generateBtn_disabled st' = false.
Proof. cbv zeta. repeat split. Qed.

(** * Further properties of the controller *)

(** ** White space and the prompt check *)

Lemma trimStart_all_whitespace (s : string) :
  all_whitespace s = true -> trimStart s = "".
Proof.
  induction s as [|c s IH]; [reflexivity|]. cbn.
  destruct (isWhiteSpace c); [exact IH | discriminate].
Qed.

Lemma trimStart_head (s : string) :
  match trimStart s with
  | EmptyString => all_whitespace s = true
  | String c _ => isWhiteSpace c = false /\ all_whitespace s = false
  end.
Proof.
  induction s as [|c s IH]; [reflexivity|]. cbn.
  destruct (isWhiteSpace c) eqn:W; cbn; [|now rewrite W].
  destruct (trimStart s); [exact IH|]. exact IH.
Qed.

Lemma trimEnd_head (c : ascii) (s : string) :
  isWhiteSpace c = false -> exists t, trimEnd (String c s) = String c t.
Proof.
  intros W. cbn. destruct (trimEnd s) as [|d t].
  - rewrite W. now exists "".
  - now exists (String d t).
Qed.

Lemma trim_empty_iff (s : string) : trim s = "" <-> all_whitespace s = true.
Proof.
  unfold trim. pose proof (trimStart_head s) as H.
  destruct (trimStart s) as [|c t] eqn:E.
  - split; [intros _; exact H | reflexivity].
  - destruct H as [W A]. destruct (trimEnd_head c t W) as [u U].
    rewrite U, A. split; discriminate.
Qed.

Lemma trimEnd_idempotent (s : string) : trimEnd (trimEnd s) = trimEnd s.
Proof.
  induction s as [|c s IH]; [reflexivity|]. cbn.
  destruct (trimEnd s) as [|d t] eqn:E.
  - destruct (isWhiteSpace c) eqn:W; [reflexivity|]. cbn. now rewrite W.
  - cbn. cbn in IH. destruct (match trimEnd t with
                               | "" => if isWhiteSpace d then "" else String d ""
                               | String a s0 => String d (String a s0)
                               end) eqn:F; [discriminate IH|].
    now rewrite IH.
Qed.

Lemma trim_idempotent (s : string) : trim (trim s) = trim s.
Proof.
  unfold trim. pose proof (trimStart_head s) as H.
  destruct (trimStart s) as [|c t] eqn:E; [reflexivity|].
  destruct H as [W _]. destruct (trimEnd_head c t W) as [u U].
  rewrite U. cbn [trimStart]. rewrite W, <- U. apply trimEnd_idempotent.
Qed.

Lemma hasPrompt_false_iff (st : State) :
  hasPrompt st = false <-> all_whitespace (promptInput_value st) = true.
Proof.
  rewrite <- trim_empty_iff. unfold hasPrompt.
  destruct (trim (promptInput_value st)); cbn; split; congruence.
Qed.

(** ** Case analysis on one step *)

Lemma checkApiHealth_settled_message (o : HealthOutcome) (st : State) :
  checkApiHealth_settled o st = (Normal tt, st) \/
  exists message,
    str_truthy message = true /\
    checkApiHealth_settled o st = showError message st.
Proof.
  destruct o as [e|data]; [right; eexists; split; [|reflexivity]; reflexivity|].
  unfold checkApiHealth_settled, try_catch, await_health, getProp,
    mbind, JS_bind, mret, JS_ret, throw, skip.
  destruct data as [| | | | |props]; cbn;
    try (right; eexists; split; [|reflexivity]; reflexivity).
  destruct (truthy (lookup_prop "api_configured" props)); cbn;
    [left; reflexivity | right; eexists; split; [|reflexivity]; reflexivity].
Qed.

(** A property of the page is kept by every event once it is kept by the
    handlers the events run. *)
Lemma step_cases (P : State -> Prop) (st : State) :
  P st ->
  (forall files, P (exec (addFiles files) st)) ->
  (forall v, P (exec handlePromptInput (set_promptInput_value v st))) ->
  (forall v, P (set_aspectRatio_value v st)) ->
  (hasPrompt st = true -> isGenerating st = false -> P (exec handleGenerate st)) ->
  (forall m, str_truthy m = true -> P (exec (showError m) st)) ->
  P (exec handleNewGeneration st) ->
  (forall i, P (exec (removeFile i) st)) ->
  (forall k r, readers st !! k = Some r ->
     P (set_previewGrid (previewGrid st ++ [item_of r])
          (set_readers (delete k (readers st)) st))) ->
  (forall k o fd, fetches st !! k = Some fd ->
     P (exec (handleGenerate_settled o) (set_fetches (delete k (fetches st)) st))) ->
  forall ev, P (step st ev).
Proof.
  intros H0 Hadd Hedit Hratio Hgen Herr Hreset Hrem Hload Hsettle ev.
  destruct ev as [files|files|v|v|v| | |k|k|k o|o].
  - apply Hadd.
  - apply Hadd.
  - rewrite step_PromptEdit. apply Hedit.
  - rewrite step_PromptItemClick. apply Hedit.
  - apply Hratio.
  - rewrite step_GenerateClick.
    destruct (hasPrompt st) eqn:Hp; [|now apply Herr].
    destruct (isGenerating st) eqn:Hg; [exact H0 | now apply Hgen].
  - apply Hreset.
  - rewrite step_RemoveClick. destruct (previewGrid st !! k); [apply Hrem | exact H0].
  - rewrite step_ReaderLoad. destruct (readers st !! k) eqn:E; [now apply (Hload k) | exact H0].
  - rewrite step_FetchSettled.
    destruct (fetches st !! k) eqn:E; [now apply (Hsettle k o f) | exact H0].
  - unfold step, exec. cbn [dispatch].
    destruct (checkApiHealth_settled_message o st) as [E|(m & Hm & E)]; rewrite E.
    + exact H0.
    + now apply Herr.
Qed.

(** The two ways in which the [try] and [catch] of [handleGenerate] end:
    the result is put on display, or a non-empty message is. *)
Lemma before_finally_cases (o : FetchOutcome) (st : State) :
  (exists src,
     before_finally o st
     = set_resultSection_hidden false (set_resultImage_src src st)) \/
  (exists message,
     str_truthy message = true /\
     before_finally o st
     = set_errorMessage_hidden false (set_errorText_textContent message st)).
Proof.
  destruct (succeeds o) eqn:S.
  - left. destruct o as [e|ok e|[] data]; try discriminate S.
    assert (N : data <> JNull) by (intros ->; discriminate S).
    cbn [succeeds] in S. eexists.
    unfold before_finally, exec, try_catch.
    rewrite settled_body_Responded by exact N. cbn [negb]. rewrite S. reflexivity.
  - right. destruct (settled_body_failure o st S) as [e E].
    exists (str_or (err_message e) "An error occurred while generating the image.").
    split; [now apply str_or_truthy | exact (before_finally_failure o st e E)].
Qed.

(** ** The counter under the prompt *)

Lemma counter_sync_step (st : State) (ev : Event) :
  counter_sync st -> counter_sync (step st ev).
Proof.
  intros I. apply step_cases.
  - exact I.
  - intros files. unfold exec. now rewrite addFiles_eq.
  - intros v. reflexivity.
  - intros v. exact I.
  - intros P G. unfold exec. now rewrite handleGenerate_start.
  - intros m _. exact I.
  - reflexivity.
  - intros i. unfold exec. now rewrite removeFile_eq.
  - intros k r _. exact I.
  - intros k o fd _. unfold counter_sync, exec in *.
    rewrite handleGenerate_settled_eq. cbn.
    rewrite (keeps_before_finally charCount_textContent) by reflexivity.
    rewrite (keeps_before_finally promptInput_value) by reflexivity.
    exact I.
Qed.

(** X1.  In every state the page can reach, the counter under the prompt
    shows the number of code units of the prompt field. *)
Theorem counter_shows_prompt_length (st : State) :
  reachable st ->
  charCount_textContent st = pretty (String.length (promptInput_value st)).
Proof.
  intros R.
  apply (reachable_ind counter_sync);
    [reflexivity | intros s ev _; apply counter_sync_step | exact R].
Qed.

Lemma counter_shows_prompt_length_witness :
  let st := run [PromptEdit "a red fox"; GenerateClick; PromptItemClick "night sky"]
              initial in
  reachable st /\ charCount_textContent st = "9".
Proof.
  assert (R : reachable (run [PromptEdit "a red fox"; GenerateClick;
                              PromptItemClick "night sky"] initial))
    by (eexists; reflexivity).
  split; [exact R | exact (counter_shows_prompt_length _ R)].
Defined.

(** ** The error surface *)

Lemma error_consistent_showError (m : string) (st : State) :
  str_truthy m = true -> error_consistent (exec (showError m) st).
Proof.
  intros H. unfold error_consistent, exec. rewrite showError_eq.
  cbn [snd errorMessage_hidden errorText_textContent
       set_errorMessage_hidden set_errorText_textContent].
  now rewrite H.
Qed.

Lemma error_consistent_step (st : State) (ev : Event) :
  error_consistent st -> error_consistent (step st ev).
Proof.
  intros I. apply step_cases.
  - exact I.
  - intros files. unfold exec. now rewrite addFiles_eq.
  - intros v. reflexivity.
  - intros v. exact I.
  - intros P G. unfold exec. now rewrite handleGenerate_start.
  - intros m Hm. now apply error_consistent_showError.
  - reflexivity.
  - intros i. unfold exec. now rewrite removeFile_eq.
  - intros k r _. exact I.
  - intros k o fd _. unfold error_consistent, exec in *.
    rewrite handleGenerate_settled_eq. cbv zeta.
    cbn [snd errorMessage_hidden errorText_textContent set_generateBtn_disabled
         set_btnLoader_hidden set_btnText_hidden set_isGenerating].
    destruct (before_finally_cases o (set_fetches (delete k (fetches st)) st))
      as [[src E]|(m & Hm & E)]; rewrite E;
      cbn [errorMessage_hidden errorText_textContent set_resultSection_hidden
           set_resultImage_src set_errorMessage_hidden set_errorText_textContent
           set_fetches].
    + exact I.
    + now rewrite Hm.
Qed.

(** X2.  In every state the page can reach, the error surface is hidden
    exactly when its text is empty: no handler displays an empty message
    and none hides the surface without clearing the text. *)
Theorem error_visible_iff_text (st : State) :
  reachable st ->
  (errorMessage_hidden st = true <-> errorText_textContent st = "").
Proof.
  intros R.
  assert (I : error_consistent st).
  { apply (reachable_ind error_consistent);
      [reflexivity | intros s ev _; apply error_consistent_step | exact R]. }
  unfold error_consistent in I. rewrite I.
  destruct (errorText_textContent st); cbn; split; congruence.
Qed.

Lemma error_visible_iff_text_witness :
  let st := run [PromptEdit "   "; GenerateClick] initial in
  reachable st /\
  (errorMessage_hidden st = true <-> errorText_textContent st = "").
Proof.
  assert (R : reachable (run [PromptEdit "   "; GenerateClick] initial))
    by (eexists; reflexivity).
  split; [exact R | exact (error_visible_iff_text _ R)].
Defined.

(** ** What a request carries *)

Lemma request_ok_formData_of (st : State) :
  hasPrompt st = true -> within_capacity st -> request_ok (formData_of st).
Proof.
  intros P C. unfold request_ok, formData_of. cbn.
  split; [now apply hasPrompt_nonempty|]. split; [apply trim_idempotent | exact C].
Qed.

Lemma requests_ok_step (st : State) (ev : Event) :
  within_capacity st ->
  Forall request_ok (fetches st) -> Forall request_ok (fetches (step st ev)).
Proof.
  intros C I. apply (step_cases (fun s => Forall request_ok (fetches s))).
  - exact I.
  - intros files. unfold exec. now rewrite addFiles_eq.
  - intros v. exact I.
  - intros v. exact I.
  - intros P G. unfold exec. rewrite handleGenerate_start by assumption.
    cbn [snd fetches]. apply Forall_app. split; [exact I|].
    constructor; [now apply request_ok_formData_of | constructor].
  - intros m _. exact I.
  - exact I.
  - intros i. unfold exec. now rewrite removeFile_eq.
  - intros k r _. exact I.
  - intros k o fd _. rewrite fetches_settled. cbn. now apply Forall_delete.
Qed.

(** X3.  Every request the page has sent and not yet seen settled carries
    a prompt that is not empty and has no white space around it, and at
    most 14 images. *)
Theorem pending_requests_well_formed (st : State) :
  reachable st ->
  Forall (fun fd => fd_prompt fd <> "" /\ trim (fd_prompt fd) = fd_prompt fd /\
                    length (fd_images fd) <= 14)
    (fetches st).
Proof.
  intros R.
  apply (reachable_ind (fun s => Forall request_ok (fetches s)));
    [constructor | | exact R].
  intros s ev Rs. apply requests_ok_step. now apply within_capacity_reachable.
Qed.

Lemma pending_requests_well_formed_witness :
  let st := run [PromptEdit "  a red fox "; GenerateClick] initial in
  reachable st /\
  fetches st = [mkFormData "a red fox" "1:1" []] /\
  Forall (fun fd => fd_prompt fd <> "" /\ trim (fd_prompt fd) = fd_prompt fd /\
                    length (fd_images fd) <= 14)
    (fetches st).
Proof.
  assert (R : reachable (run [PromptEdit "  a red fox "; GenerateClick] initial))
    by (eexists; reflexivity).
  split; [exact R|]. split; [reflexivity | exact (pending_requests_well_formed _ R)].
Defined.

(** ** The loading indicator *)

Lemma loader_sync_step (st : State) (ev : Event) :
  loader_sync st -> loader_sync (step st ev).
Proof.
  intros I. apply step_cases.
  - exact I.
  - intros files. unfold exec. now rewrite addFiles_eq.
  - intros v. exact I.
  - intros v. exact I.
  - intros P G. unfold exec. rewrite handleGenerate_start by assumption.
    split; [reflexivity|]. intros _. cbn [snd fetches].
    intros E. now apply app_eq_nil in E as [_ E].
  - intros m _. exact I.
  - exact I.
  - intros i. unfold exec. now rewrite removeFile_eq.
  - intros k r _. exact I.
  - intros k o fd _. unfold exec. rewrite handleGenerate_settled_eq.
    split; [reflexivity | discriminate].
Qed.

Lemma loader_sync_reachable (st : State) : reachable st -> loader_sync st.
Proof.
  intros R.
  apply (reachable_ind loader_sync);
    [split; [reflexivity | discriminate]
    | intros s ev _; apply loader_sync_step | exact R].
Qed.

(** X4.  In every state the page can reach, the trigger control shows
    either its text or its spinner, never both and never neither, and the
    spinner only while a request is pending. *)
Theorem spinner_only_while_pending (st : State) :
  reachable st ->
  btnText_hidden st = negb (btnLoader_hidden st) /\
  (fetches st = [] -> btnLoader_hidden st = true /\ btnText_hidden st = false).
Proof.
  intros R. destruct (loader_sync_reachable st R) as [T L].
  split; [exact T|]. intros E. rewrite T.
  destruct (btnLoader_hidden st); [now split|]. now destruct L.
Qed.

Lemma spinner_only_while_pending_witness :
  let st := run [PromptEdit "a red fox"; GenerateClick;
                 FetchSettled 0 (Responded true JNull)] initial in
  reachable st /\ btnLoader_hidden st = true /\ btnText_hidden st = false.
Proof.
  assert (R : reachable (run [PromptEdit "a red fox"; GenerateClick;
                              FetchSettled 0 (Responded true JNull)] initial))
    by (eexists; reflexivity).
  split; [exact R | exact (proj2 (spinner_only_while_pending _ R) eq_refl)].
Defined.

(** ** Reset *)

(** X6.  The reset does not cancel a decode that is pending: when it
    completes, its preview is rendered although the collection is empty;
    the remove button of that preview then only clears the grid. *)
Theorem reset_keeps_pending_decodes (st : State) (k : nat) (r : Reader) :
  readers st !! k = Some r ->
  let st1 := run [NewGenerationClick; ReaderLoad k] st in
  let st2 := step st1 (RemoveClick 0) in
  uploadedFiles st1 = [] /\
  previewGrid st1 = [item_of r] /\
  readers st1 = delete k (readers st) /\
  uploadedFiles st2 = [] /\
  previewGrid st2 = [] /\
  readers st2 = readers st1.
Proof.
  intros E. cbv zeta. cbn [run foldl].
  set (s0 := step st NewGenerationClick).
  assert (F0 : uploadedFiles s0 = [] /\ previewGrid s0 = [] /\ readers s0 = readers st).
  { unfold s0, step, exec, dispatch. now rewrite handleNewGeneration_eq. }
  destruct F0 as (U0 & G0 & R0).
  assert (E' : readers s0 !! k = Some r) by now rewrite R0.
  rewrite (step_ReaderLoad_Some k r s0 E').
  set (s1 := set_previewGrid _ _).
  assert (F1 : uploadedFiles s1 = [] /\ previewGrid s1 = [item_of r]
               /\ readers s1 = delete k (readers st)).
  { unfold s1. cbn [uploadedFiles previewGrid readers set_previewGrid set_readers].
    now rewrite U0, G0, R0. }
  destruct F1 as (U1 & G1 & R1).
  rewrite step_RemoveClick, G1. cbn [lookup list_lookup].
  unfold exec. rewrite removeFile_eq.
  cbn [snd uploadedFiles previewGrid readers]. rewrite U1.
  cbn. now rewrite app_nil_r.
Qed.

Lemma reset_keeps_pending_decodes_witness :
  let a := mkFile "a.png" "image/png" "data:a" in
  let st := run [FileSelect [a]] initial in
  readers st !! 0 = Some (mkReader a 0) /\
  uploadedFiles (run [NewGenerationClick; ReaderLoad 0] st) = [] /\
  map item_src (previewGrid (run [NewGenerationClick; ReaderLoad 0] st)) = ["data:a"].
Proof.
  cbv zeta.
  set (a := mkFile "a.png" "image/png" "data:a").
  assert (E : readers (run [FileSelect [a]] initial) !! 0 = Some (mkReader a 0))
    by reflexivity.
  destruct (reset_keeps_pending_decodes _ 0 _ E) as (F & G & _).
  split; [exact E|]. split; [exact F|]. now rewrite G.
Defined.

(** ** The checks of [handleGenerate] *)

(** X7.  A click on the trigger control with a prompt of white space only
    (or empty) sends nothing: it displays the validation message and leaves
    the flag, the button and the result section as they are.  With any
    other prompt and the flag not set it sends exactly one request, built
    from the trimmed prompt, the selected ratio and the attachments in
    order, and switches to the loading state with result and error hidden.
    No click ever sends more than one request. *)
Theorem generate_sends_request_iff (st : State) :
  let st' := step st GenerateClick in
  (all_whitespace (promptInput_value st) = true ->
   fetches st' = fetches st /\
   isGenerating st' = isGenerating st /\
   generateBtn_disabled st' = generateBtn_disabled st /\
   resultSection_hidden st' = resultSection_hidden st /\
   errorMessage_hidden st' = false /\
   errorText_textContent st' = "Please enter a prompt to generate an image.") /\
  (all_whitespace (promptInput_value st) = false -> isGenerating st = false ->
   fetches st' = fetches st ++ [formData_of st] /\
   isGenerating st' = true /\
   generateBtn_disabled st' = true /\
   btnLoader_hidden st' = false /\
   resultSection_hidden st' = true /\
   errorMessage_hidden st' = true) /\
  length (fetches st') <= length (fetches st) + 1.
Proof.
  cbv zeta. rewrite step_GenerateClick.
  destruct (hasPrompt st) eqn:P.
  - assert (W : all_whitespace (promptInput_value st) = false).
    { destruct (all_whitespace (promptInput_value st)) eqn:W; [|reflexivity].
      apply hasPrompt_false_iff in W. congruence. }
    rewrite W. split; [discriminate|].
    destruct (isGenerating st) eqn:G; cbv iota.
    + split; [discriminate | lia].
    + rewrite handleGenerate_start by assumption. cbn [snd fetches].
      split; [intros _ _; repeat split | rewrite length_app; cbn; lia].
  - apply hasPrompt_false_iff in P. rewrite P. cbv iota.
    unfold exec. rewrite showError_eq.
    cbn [snd fetches isGenerating generateBtn_disabled resultSection_hidden
         errorMessage_hidden errorText_textContent
         set_errorMessage_hidden set_errorText_textContent].
    split; [intros _; repeat split|]. split; [discriminate | lia].
Qed.

Lemma generate_sends_request_iff_witness :
  let st := run [PromptEdit "   "] initial in
  all_whitespace (promptInput_value st) = true /\
  fetches (step st GenerateClick) = [] /\
  errorMessage_hidden (step st GenerateClick) = false.
Proof.
  cbv zeta.
  assert (W : all_whitespace (promptInput_value (run [PromptEdit "   "] initial)) = true)
    by reflexivity.
  destruct (proj1 (generate_sends_request_iff _) W) as (F & _ & _ & _ & H & _).
  split; [exact W|]. split; [exact F | exact H].
Defined.

(** ** Dropped and selected files *)

(** X8.  A drop adds image-typed files only: the files whose type does
    not start with [image/] are discarded before the capacity is applied,
    so they take no room, and the remaining ones are added in order.  The
    file dialog has no such filter: the files it delivers are added
    whatever their type. *)
Theorem drop_adds_images_only (st : State) (files : list File) :
  reachable st ->
  let room := 14 - length (uploadedFiles st) in
  uploadedFiles (step st (Drop files))
    = uploadedFiles st ++ take room (filter (fun f => isImage f = true) files) /\
  Forall (fun f => isImage f = true)
    (drop (length (uploadedFiles st)) (uploadedFiles (step st (Drop files)))) /\
  uploadedFiles (step st (FileSelect files))
    = uploadedFiles st ++ take room files.
Proof.
  intros R. cbv zeta. pose proof (within_capacity_reachable st R) as C.
  assert (D : uploadedFiles (step st (Drop files))
              = uploadedFiles st
                ++ take (14 - length (uploadedFiles st))
                     (filter (fun f => isImage f = true) files)).
  { unfold step, exec, dispatch, handleDrop. rewrite addFiles_eq.
    cbn [snd uploadedFiles]. now rewrite filesToAdd_take. }
  split; [exact D|]. split.
  - rewrite D, drop_app_length. apply Forall_take.
    apply Forall_forall. intros f Hf. now apply list_elem_of_filter in Hf as [Hf _].
  - unfold step, exec, dispatch, handleFileSelect. rewrite addFiles_eq.
    cbn [snd uploadedFiles]. now rewrite filesToAdd_take.
Qed.

Lemma drop_adds_images_only_witness :
  let pdf := mkFile "notes.pdf" "application/pdf" "data:pdf" in
  let png := mkFile "a.png" "image/png" "data:a" in
  reachable initial /\
  uploadedFiles (step initial (Drop [pdf; png])) = [png] /\
  uploadedFiles (step initial (FileSelect [pdf; png])) = [pdf; png].
Proof.
  cbv zeta.
  assert (R : reachable initial) by (exists []; reflexivity).
  destruct (drop_adds_images_only initial
              [mkFile "notes.pdf" "application/pdf" "data:pdf";
               mkFile "a.png" "image/png" "data:a"] R) as (D & _ & S).
  split; [exact R|]. split; [exact D | exact S].
Defined.

(** ** Removal *)

Lemma delete_out_of_range {A : Type} (l : list A) (i : nat) :
  length l <= i -> delete i l = l.
Proof.
  intros H. rewrite delete_take_drop, take_ge, drop_ge by lia. apply app_nil_r.
Qed.

(** X9.  [removeFile] with an index past the end of the collection (the
    index of a preview that is out of date) removes nothing, but still
    empties the grid and starts a decode for every attachment. *)
Theorem remove_out_of_range (st : State) (i : nat) :
  length (uploadedFiles st) <= i ->
  let st' := exec (removeFile i) st in
  fst (removeFile i st) = Normal tt /\
  uploadedFiles st' = uploadedFiles st /\
  previewGrid st' = [] /\
  readers st' = readers st ++ readers_for 0 (uploadedFiles st).
Proof.
  intros H. cbv zeta. unfold exec. rewrite removeFile_eq.
  cbn [fst snd uploadedFiles previewGrid readers].
  rewrite delete_out_of_range by exact H. repeat split.
Qed.

Lemma remove_out_of_range_witness :
  let a := mkFile "a.png" "image/png" "data:a" in
  let st := run [FileSelect [a]; ReaderLoad 0] initial in
  length (uploadedFiles st) <= 3 /\
  uploadedFiles (exec (removeFile 3) st) = [a] /\
  previewGrid (exec (removeFile 3) st) = [].
Proof.
  cbv zeta.
  set (st := run _ initial).
  assert (H : length (uploadedFiles st) <= 3) by (vm_compute; lia).
  destruct (remove_out_of_range st 3 H) as (_ & U & G & _).
  split; [exact H|]. split; [exact U | exact G].
Defined.

Lemma readers_for_lookup (base : nat) (l : list File) (k : nat) (f : File) :
  l !! k = Some f -> readers_for base l !! k = Some (mkReader f (base + k)).
Proof. intros E. unfold readers_for. now rewrite list_lookup_imap, E. Qed.

(** X10.  On a page whose grid shows the collection in order with no
    decode pending, the remove button of the preview at position [k]
    removes the attachment at position [k] and no other; once the decodes
    started by the rebuild have completed in their order, the grid shows
    the remaining collection in order again. *)
Theorem remove_click_removes_that_attachment (st : State) (k : nat) :
  rendered_in_order st -> readers st = [] -> k < length (uploadedFiles st) ->
  let st1 := step st (RemoveClick k) in
  let st2 := run (replicate (length (readers st1)) (ReaderLoad 0)) st1 in
  uploadedFiles st1 = delete k (uploadedFiles st) /\
  previewGrid st1 = [] /\
  uploadedFiles st2 = delete k (uploadedFiles st) /\
  readers st2 = [] /\
  rendered_in_order st2.
Proof.
  intros O E H. cbv zeta.
  destruct (lookup_lt_is_Some_2 _ _ H) as [f Hf].
  assert (G : previewGrid st !! k = Some (item_of (mkReader f k))).
  { rewrite O, list_lookup_fmap, (readers_for_lookup 0 _ k f Hf). reflexivity. }
  assert (S1 : step st (RemoveClick k) = snd (removeFile k st)).
  { rewrite step_RemoveClick, G. reflexivity. }
  rewrite S1, (loads_in_start_order _ _ eq_refl), removeFile_eq.
  cbn [snd uploadedFiles previewGrid readers set_previewGrid set_readers].
  rewrite E. cbn [app]. repeat split.
Qed.

Lemma remove_click_removes_that_attachment_witness :
  let a := mkFile "a.png" "image/png" "data:a" in
  let b := mkFile "b.png" "image/png" "data:b" in
  let st := run [FileSelect [a; b]; ReaderLoad 0; ReaderLoad 0] initial in
  rendered_in_order st /\ readers st = [] /\ 0 < length (uploadedFiles st) /\
  uploadedFiles (step st (RemoveClick 0)) = [b].
Proof.
  cbv zeta.
  set (st := run _ initial).
  assert (O : rendered_in_order st) by reflexivity.
  assert (E : readers st = []) by reflexivity.
  assert (H : 0 < length (uploadedFiles st)) by (vm_compute; lia).
  destruct (remove_click_removes_that_attachment st 0 O E H) as (U & _).
  split; [exact O|]. split; [exact E|]. split; [exact H | exact U].
Defined.

(** ** The health check *)

(** X11.  [checkApiHealth] touches the error surface only.  A body with a
    truthy [api_configured] leaves the page as it is; a body where it is
    falsy or missing displays the notice about the API key; a request that
    fails, or a body that is [null], displays the notice about the
    connection. *)
Theorem health_check_notice (o : HealthOutcome) (st : State) :
  let st' := step st (HealthSettled o) in
  (forall data, o = HealthResponded data -> data <> JNull ->
     truthy (body_prop data "api_configured") = true -> st' = st) /\
  (forall data, o = HealthResponded data -> data <> JNull ->
     truthy (body_prop data "api_configured") = false ->
     st' = exec (showError
                   "API key not configured. Please set GOOGLE_API_KEY environment variable.")
             st) /\
  ((exists e, o = HealthRejected e) \/ o = HealthResponded JNull ->
   st' = exec (showError "Unable to connect to the server. Please try again later.") st).
Proof.
  cbv zeta. unfold step, exec. cbn [dispatch].
  unfold checkApiHealth_settled, try_catch, await_health.
  split; [|split].
  - intros data -> N T. unfold mbind at 1, JS_bind at 1, mret at 1, JS_ret at 1.
    rewrite (bind_Normal _ _ _ _ _ (getProp_eq data "api_configured" st N)).
    now rewrite T.
  - intros data -> N T. unfold mbind at 1, JS_bind at 1, mret at 1, JS_ret at 1.
    rewrite (bind_Normal _ _ _ _ _ (getProp_eq data "api_configured" st N)).
    now rewrite T.
  - intros [[e ->]| ->]; reflexivity.
Qed.

Lemma health_check_notice_witness :
  errorText_textContent (step initial (HealthSettled (HealthResponded (JObj []))))
  = "API key not configured. Please set GOOGLE_API_KEY environment variable.".
Proof.
  assert (N : JObj [] <> JNull) by discriminate.
  rewrite (proj1 (proj2 (health_check_notice (HealthResponded (JObj [])) initial))
             (JObj []) eq_refl N eq_refl).
  reflexivity.
Defined.

(** ** The fullscreen viewer *)

Lemma scroll_lock_sync_step (p : Page) (ev : PageEvent) :
  scroll_lock_sync (chrome p) -> scroll_lock_sync (chrome (page_step p ev)).
Proof.
  intros I. destruct ev as [ev| |k| |on_modal|key| | |]; cbn [page_step].
  - destruct ev; exact I.
  - cbn [chrome]. unfold resultContainer_click.
    destruct (str_truthy _); [reflexivity | exact I].
  - destruct (previewGrid (doc p) !! k); [reflexivity | exact I].
  - reflexivity.
  - destruct on_modal; [reflexivity | exact I].
  - cbn [chrome]. unfold document_keydown.
    destruct (_ && _); [reflexivity | exact I].
  - exact I.
  - exact I.
  - exact I.
Qed.

(** X12.  Starting from a page where the body scrolls exactly when the
    viewer is closed, this stays so whatever happens: every way of opening
    the viewer (result image, preview image) locks the scrolling and every
    way of closing it (close control, click on the backdrop, Escape) gives
    it back.  In particular the page scrolls after an Escape key. *)
Theorem viewer_locks_scrolling (p : Page) (evs : list PageEvent) :
  scroll_lock_sync (chrome p) ->
  let c := chrome (page_run evs p) in
  (fullscreenModal_hidden c = false -> body_overflow c = "hidden") /\
  (fullscreenModal_hidden c = true -> body_overflow c = "") /\
  body_overflow (chrome (page_step (page_run evs p) (KeyDown "Escape"))) = "".
Proof.
  intros I. cbv zeta.
  assert (J : scroll_lock_sync (chrome (page_run evs p))).
  { induction evs as [|ev evs IH] using rev_ind; [exact I|].
    unfold page_run. rewrite foldl_app. cbn [foldl].
    now apply scroll_lock_sync_step. }
  unfold scroll_lock_sync in *.
  split; [intros H; now rewrite J, H|]. split; [intros H; now rewrite J, H|].
  cbn [page_step chrome]. unfold document_keydown. rewrite String.eqb_refl.
  destruct (fullscreenModal_hidden (chrome (page_run evs p))) eqn:H;
    cbn [andb negb]; [rewrite J; try rewrite H; reflexivity | reflexivity].
Qed.

Lemma viewer_locks_scrolling_witness :
  let p := mkPage (run [FileSelect [mkFile "a.png" "image/png" "data:a"]; ReaderLoad 0]
                     initial)
             (mkChrome "" true "" true false false) in
  scroll_lock_sync (chrome p) /\
  body_overflow (chrome (page_run [PreviewImageClick 0] p)) = "hidden" /\
  body_overflow (chrome (page_run [PreviewImageClick 0; FullscreenModalClick true] p)) = "".
Proof.
  cbv zeta.
  set (p := mkPage _ _).
  assert (I : scroll_lock_sync (chrome p)) by reflexivity.
  split; [exact I|]. split.
  - exact (proj1 (viewer_locks_scrolling p [PreviewImageClick 0] I) eq_refl).
  - exact (proj1 (proj2 (viewer_locks_scrolling p
                           [PreviewImageClick 0; FullscreenModalClick true] I)) eq_refl).
Defined.

(** ** The suggested prompts *)

Lemma prompts_sync_step (p : Page) (ev : PageEvent) :
  prompts_sync (chrome p) -> prompts_sync (chrome (page_step p ev)).
Proof.
  intros I. destruct ev as [ev| |k| |on_modal|key| | |]; cbn [page_step].
  - destruct ev; try exact I. reflexivity.
  - cbn [chrome]. unfold resultContainer_click.
    destruct (str_truthy _); exact I.
  - destruct (previewGrid (doc p) !! k); exact I.
  - exact I.
  - destruct on_modal; exact I.
  - cbn [chrome]. unfold document_keydown.
    destruct (_ && _); exact I.
  - unfold prompts_sync in *. cbn. now rewrite I.
  - exact I.
  - exact I.
Qed.

(** X13.  Starting from a page where the toggle is marked active exactly
    when the list of suggested prompts is shown, this stays so whatever
    happens; and two clicks on the toggle leave the page as it was. *)
Theorem prompts_toggle_follows_list (p : Page) (evs : list PageEvent) :
  promptsToggle_active (chrome p) = negb (promptsList_hidden (chrome p)) ->
  let c := chrome (page_run evs p) in
  promptsToggle_active c = negb (promptsList_hidden c) /\
  page_run [PromptsToggleClick; PromptsToggleClick] (page_run evs p) = page_run evs p.
Proof.
  intros I. cbv zeta. split.
  - induction evs as [|ev evs IH] using rev_ind; [exact I|].
    unfold page_run. rewrite foldl_app. cbn [foldl].
    now apply prompts_sync_step.
  - destruct (page_run evs p) as [d [src mh ov lh ta dr]]. cbn.
    unfold togglePromptsList. cbn. now rewrite !negb_involutive.
Qed.

Lemma prompts_toggle_follows_list_witness :
  let p := mkPage initial (mkChrome "" true "" true false false) in
  promptsToggle_active (chrome p) = negb (promptsList_hidden (chrome p)) /\
  promptsToggle_active (chrome (page_run [PromptsToggleClick] p)) = true /\
  promptsList_hidden (chrome (page_run [PromptsToggleClick] p)) = false.
Proof.
  cbv zeta.
  set (p := mkPage _ _).
  assert (I : promptsToggle_active (chrome p) = negb (promptsList_hidden (chrome p)))
    by reflexivity.
  destruct (prompts_toggle_follows_list p [PromptsToggleClick] I) as [S _].
  split; [exact I|]. split; [rewrite S|]; reflexivity.
Defined.

(** ** Share *)



(** ** Batches of files *)

(** X15.  Adding two batches one after the other leaves the page exactly
    as adding them as one batch does: the capacity cuts the same files and
    the previews get the same indices. *)
Theorem addFiles_batches_compose (st : State) (a b : list File) :
  reachable st ->
  exec (addFiles b) (exec (addFiles a) st) = exec (addFiles (a ++ b)) st.
Proof.
  intros R. pose proof (within_capacity_reachable st R) as C.
  pose proof (addFiles_within_capacity a st C) as C'.
  unfold exec in *. rewrite (addFiles_eq b), (addFiles_eq (a ++ b)).
  rewrite (filesToAdd_take b) by exact C'.
  rewrite (filesToAdd_take (a ++ b)) by exact C.
  rewrite addFiles_eq. cbn [snd uploadedFiles isGenerating promptInput_value
    charCount_textContent aspectRatio_value btnText_hidden btnLoader_hidden
    resultSection_hidden resultImage_src previewGrid readers fetches].
  rewrite (filesToAdd_take a) by exact C.
  set (n := length (uploadedFiles st)).
  assert (T : take (MAX_FILES - n) (a ++ b)
              = take (MAX_FILES - n) a
                ++ take (MAX_FILES - length (uploadedFiles st ++ take (MAX_FILES - n) a)) b).
  { rewrite take_app, length_app, length_take. fold n. f_equal.
    unfold within_capacity in C. fold n in C.
    destruct (Nat.le_gt_cases (length a) (MAX_FILES - n)) as [H|H].
    - f_equal. lia.
    - replace (MAX_FILES - n - length a) with 0 by lia.
      replace (MAX_FILES - (n + Nat.min (MAX_FILES - n) (length a))) with 0 by lia.
      reflexivity. }
  rewrite T, readers_for_app, !app_assoc, length_app. fold n.
  assert (P : hasPrompt
                {| uploadedFiles := uploadedFiles st ++ take (MAX_FILES - n) a;
                   isGenerating := isGenerating st;
                   promptInput_value := promptInput_value st;
                   charCount_textContent := charCount_textContent st;
                   aspectRatio_value := aspectRatio_value st;
                   generateBtn_disabled := negb (hasPrompt st) || isGenerating st;
                   btnText_hidden := btnText_hidden st;
                   btnLoader_hidden := btnLoader_hidden st;
                   resultSection_hidden := resultSection_hidden st;
                   resultImage_src := resultImage_src st;
                   errorMessage_hidden := true;
                   errorText_textContent := "";
                   previewGrid := previewGrid st;
                   readers := readers st ++ readers_for n (take (MAX_FILES - n) a);
                   fetches := fetches st |} = hasPrompt st) by reflexivity.
  rewrite P. reflexivity.
Qed.

Lemma addFiles_batches_compose_witness :
  let f := mkFile "a.png" "image/png" "data:a" in
  reachable initial /\
  exec (addFiles (replicate 9 f)) (exec (addFiles (replicate 9 f)) initial)
  = exec (addFiles (replicate 18 f)) initial.
Proof.
  cbv zeta.
  assert (R : reachable initial) by (exists []; reflexivity).
  split; [exact R|].
  exact (addFiles_batches_compose initial
           (replicate 9 (mkFile "a.png" "image/png" "data:a"))
           (replicate 9 (mkFile "a.png" "image/png" "data:a")) R).
Defined.

(** ** The page while a generation is flagged *)

Lemma busy_view_step (st : State) (ev : Event) :
  busy_view st -> busy_view (step st ev).
Proof.
  intros I. apply step_cases.
  - exact I.
  - intros files. unfold exec. rewrite addFiles_eq. intros G. cbn in G |- *.
    destruct (I G) as (H1 & H2 & H3 & _). rewrite G, orb_true_r. now repeat split.
  - intros v. unfold exec. rewrite handlePromptInput_eq. unfold busy_view in *.
    cbn [snd isGenerating resultSection_hidden btnLoader_hidden btnText_hidden
         generateBtn_disabled set_errorText_textContent set_errorMessage_hidden
         set_generateBtn_disabled set_charCount_textContent set_promptInput_value].
    intros G. destruct (I G) as (H1 & H2 & H3 & _).
    rewrite G, orb_true_r. now repeat split.
  - intros v. exact I.
  - intros P G. unfold exec. rewrite handleGenerate_start by assumption.
    intros _. now repeat split.
  - intros m _. exact I.
  - intros G. unfold exec in G. rewrite handleNewGeneration_eq in G. discriminate G.
  - intros i. unfold exec. rewrite removeFile_eq. intros G. cbn in G |- *.
    destruct (I G) as (H1 & H2 & H3 & _). rewrite G, orb_true_r. now repeat split.
  - intros k r _. exact I.
  - intros k o fd _ G. rewrite isGenerating_settled in G. discriminate G.
Qed.

(** X16.  In every state the page can reach, while the flag
    [isGenerating] is set the result section is hidden, the spinner is
    shown in place of the button text and the trigger control is
    disabled. *)
Theorem busy_page_shows_loading_state (st : State) :
  reachable st -> isGenerating st = true ->
  resultSection_hidden st = true /\ btnLoader_hidden st = false /\
  btnText_hidden st = true /\ generateBtn_disabled st = true.
Proof.
  intros R.
  apply (reachable_ind busy_view);
    [discriminate | intros s ev _; apply busy_view_step | exact R].
Qed.

Lemma busy_page_shows_loading_state_witness :
  let st := run [PromptEdit "a red fox"; GenerateClick; PromptEdit "a red fox at dawn"]
              initial in
  reachable st /\ isGenerating st = true /\ generateBtn_disabled st = true.
Proof.
  cbv zeta.
  set (st := run _ initial).
  assert (R : reachable st) by (eexists; reflexivity).
  assert (G : isGenerating st = true) by reflexivity.
  destruct (busy_page_shows_loading_state st R G) as (_ & _ & _ & D).
  split; [exact R|]. split; [exact G | exact D].
Defined.

(** ** No preview lost, none twice *)

Lemma previews_complete_step (st : State) (ev : Event) :
  keeps_attachments ev = true ->
  previews_complete st -> previews_complete (step st ev).
Proof.
  intros K I. destruct ev as [files|files|v|v|v| | |k|k|k o|o]; try discriminate K.
  - unfold previews_complete, step, exec, dispatch, handleFileSelect in *.
    rewrite addFiles_eq. cbn [snd previewGrid readers uploadedFiles].
    rewrite readers_for_app, !map_app, app_assoc, I. reflexivity.
  - unfold previews_complete, step, exec, dispatch, handleDrop in *.
    rewrite addFiles_eq. cbn [snd previewGrid readers uploadedFiles].
    rewrite readers_for_app, !map_app, app_assoc, I. reflexivity.
  - exact I.
  - exact I.
  - exact I.
  - rewrite step_GenerateClick.
    destruct (hasPrompt st) eqn:P; [|exact I].
    destruct (isGenerating st) eqn:G; [exact I|].
    rewrite handleGenerate_start by assumption. exact I.
  - rewrite step_ReaderLoad. destruct (readers st !! k) as [r|] eqn:E; [|exact I].
    unfold previews_complete in *.
    cbn [previewGrid readers uploadedFiles set_previewGrid set_readers].
    rewrite <- I, <- app_assoc. apply Permutation_app_head.
    rewrite (delete_Permutation (readers st) k r E) at 2. reflexivity.
  - rewrite step_FetchSettled. destruct (fetches st !! k); [|exact I].
    unfold previews_complete, exec in *. rewrite handleGenerate_settled_eq. cbv zeta.
    cbn [snd previewGrid readers uploadedFiles set_generateBtn_disabled
         set_btnLoader_hidden set_btnText_hidden set_isGenerating].
    rewrite (keeps_before_finally previewGrid), (keeps_before_finally readers),
      (keeps_before_finally uploadedFiles) by reflexivity.
    exact I.
  - unfold step, exec.
    destruct (checkApiHealth_settled_cases o st) as [E|[m E]];
      cbn [dispatch]; rewrite E; exact I.
Qed.

(** X17.  As long as nothing is removed and the page is not reset, every
    attachment has exactly one preview, rendered or still being decoded,
    and it carries the position of its attachment: whatever the order in
    which the decodes complete, no preview is lost and none appears
    twice. *)
Theorem previews_neither_lost_nor_doubled (evs : list Event) :
  Forall (fun ev => keeps_attachments ev = true) evs ->
  let st := run evs initial in
  previewGrid st ++ map item_of (readers st)
  ≡ₚ map item_of (readers_for 0 (uploadedFiles st)).
Proof.
  intros H. cbv zeta.
  induction evs as [|ev evs IH] using rev_ind; [reflexivity|].
  apply Forall_app in H as [H1 H2]. rewrite run_snoc.
  apply previews_complete_step; [now inversion H2 | now apply IH].
Qed.

Lemma previews_neither_lost_nor_doubled_witness :
  let a := mkFile "a.png" "image/png" "data:a" in
  let b := mkFile "b.png" "image/png" "data:b" in
  let evs := [FileSelect [a; b]; ReaderLoad 1] in
  Forall (fun ev => keeps_attachments ev = true) evs /\
  previewGrid (run evs initial) ++ map item_of (readers (run evs initial))
  ≡ₚ map item_of (readers_for 0 (uploadedFiles (run evs initial))).
Proof.
  cbv zeta.
  set (evs := [FileSelect _; ReaderLoad 1]).
  assert (H : Forall (fun ev => keeps_attachments ev = true) evs)
    by (repeat constructor).
  split; [exact H | exact (previews_neither_lost_nor_doubled evs H)].
Defined.
